(** * Lie-Dar: fusion engine, pulse estimator, facial scorer, voice analyser

    A shallow embedding of the scoring code of the repository
    (src/logic_engine.py, src/bpm_estimator.py, src/facial_analysis.py,
    src/voice_stress.py and the reset/tick wiring of main.py and
    main_gui.py) together with the properties its specification states.

    Numbers.  Python floats are embedded as exact rationals [Q]: every
    arithmetic step of the source is carried out without rounding, and
    equality of scores is [Qeq] ([==]).  Functions of numpy, scipy,
    librosa and MediaPipe that the repository calls but does not define
    (square root, FFT, filters, pitch tracking, face mesh) are
    parameters; everything the repository itself computes is a
    definition that evaluates.  The numeric scenarios of the
    specification are evaluated a second time in IEEE binary64, the
    format of a Python float, in module [Binary64].

    Effects.  Methods take the object and return it next to their
    result; a method that can raise returns an [Outcome].  Division by
    zero is followed where the source can reach it with a Python float
    ([update_weights] raises); the other quotients have divisors that
    are positive on every path the properties below speak about
    (lengths of non-empty windows, [x + 1e-6], [fps * 5] with frames
    still missing).  The frame rate is a positive number of frames per
    second; at [fps = 0] the source fails inside scipy, which the
    embedding does not follow.  Likewise [process_frame] follows the
    calls that return: where scipy raises on a short signal (filtfilt
    needs more than 21 samples, so the first estimates at 2 to 4 frames
    per second raise after the sample was appended) the embedding
    returns metrics, and no property below relies on that return. *)

From Stdlib Require Import String QArith Qabs Qminmax ZArith List Bool Arith Lia Lqa.
From Stdlib Require Import Sorted Permutation Floats.
Import ListNotations.
Open Scope Q_scope.

(** ** Python and numpy primitives used by the source *)

Module Py.

(** Exceptions the modelled code can raise. *)
Inductive exn : Type :=
| ZeroDivisionError
| AssertionError (msg : string)
| ValueError (msg : string)
| AttributeError (msg : string)
| LibraryError (msg : string).

(** Outcome of a call: a returned value or a raised exception. *)
Inductive Outcome (A : Type) : Type :=
| Returned (a : A)
| Raised (e : exn).
Arguments Returned {A} a.
Arguments Raised {A} e.

Definition Qltb (x y : Q) : bool := negb (Qle_bool y x).
Definition Qeqb (x y : Q) : bool := Qeq_bool x y.

(** [len(xs)] as a float-compatible number. *)
Definition Qlen {A : Type} (xs : list A) : Q := inject_Z (Z.of_nat (length xs)).

Definition Qsum (xs : list Q) : Q := fold_right Qplus 0 xs.

(** [np.mean]; the source only calls it on non-empty data. *)
Definition np_mean (xs : list Q) : Q := Qsum xs / Qlen xs.

(** [np.clip(x, lo, hi)] is [minimum(hi, maximum(x, lo))]. *)
Definition np_clip (x lo hi : Q) : Q := Qmin hi (Qmax x lo).

(** [int(x)] on a float: truncation towards zero. *)
Definition py_int (x : Q) : Z := Z.quot (Qnum x) (Zpos (Qden x)).

(** Insertion sort, as [np.sort] orders the window before the median. *)
Fixpoint insert_sorted (x : Q) (xs : list Q) : list Q :=
  match xs with
  | [] => [x]
  | y :: ys => if Qle_bool x y then x :: xs else y :: insert_sorted x ys
  end.

Definition np_sort (xs : list Q) : list Q := fold_right insert_sorted [] xs.

(** [np.median]: middle element, or the mean of the two middle ones. *)
Definition np_median (xs : list Q) : Q :=
  let s := np_sort xs in
  let n := length s in
  if Nat.even n
  then (nth (n / 2 - 1) s 0 + nth (n / 2) s 0) / 2
  else nth (n / 2) s 0.

(** [collections.deque(maxlen=m).append(x)]: the oldest element is
    dropped once the deque is full; a deque of capacity 0 stays empty. *)
Definition deque_append {A : Type} (maxlen : nat) (d : list A) (x : A) : list A :=
  if (maxlen =? 0)%nat then d
  else if (length d <? maxlen)%nat then d ++ [x]
  else tl d ++ [x].

(** Sequencing of calls that may raise, and [try: ... except Exception:]. *)
Definition bind {A B : Type} (m : Outcome A) (k : A -> Outcome B) : Outcome B :=
  match m with
  | Returned a => k a
  | Raised e => Raised e
  end.

Definition try_except {A : Type} (m : Outcome A) (handler : exn -> Outcome A) : Outcome A :=
  match m with
  | Returned a => Returned a
  | Raised e => handler e
  end.

Notation "x <- m ;; k" := (bind m (fun x => k))
  (at level 61, m at next level, right associativity).

(** [xs[-n:]]: the last [n] elements; [n = 0] selects the whole list. *)
Definition last_n {A : Type} (n : nat) (xs : list A) : list A :=
  if (n =? 0)%nat then xs else skipn (length xs - n) xs.

(** [np.diff] followed by [np.abs]. *)
Fixpoint abs_diff (xs : list Q) : list Q :=
  match xs with
  | a :: (b :: _) as r => Qabs (b - a) :: abs_diff r
  | _ => []
  end.

End Py.
Import Py.

(** ** src/logic_engine.py *)

Module LogicEngine.

Inductive AlertLevel : Type :=
| HIGH_STRESS
| MEDIUM_STRESS
| LOW_STRESS.

Definition AlertLevel_value (a : AlertLevel) : string :=
  match a with
  | HIGH_STRESS => "high_stress"
  | MEDIUM_STRESS => "medium_stress"
  | LOW_STRESS => "low_stress"
  end.

Record t : Type := mk {
  facial_weight : Q;
  voice_weight : Q;
  pulse_weight : Q;
  honesty_history : list Q;
  max_history : nat
}.

(** [__init__]: the assertion rejects weights whose sum is not within
    0.01 of 1.0. *)
Definition init (facial_weight voice_weight pulse_weight : Q) : Outcome t :=
  let total_weight := facial_weight + voice_weight + pulse_weight in
  if Qltb (Qabs (total_weight - 1)) 0.01
  then Returned (mk facial_weight voice_weight pulse_weight [] 10)
  else Raised (AssertionError "Weights must sum to 1.0").

(** The instantaneous honesty value of one call, before smoothing. *)
Definition instantaneous_honesty (self : t) (facial_stress voice_stress pulse_stress : Q) : Q :=
  let facial_stress := np_clip facial_stress 0 100 in
  let voice_stress := np_clip voice_stress 0 100 in
  let pulse_stress := np_clip pulse_stress 0 100 in
  let combined_stress :=
    facial_weight self * facial_stress +
    voice_weight self * voice_stress +
    pulse_weight self * pulse_stress in
  100 - combined_stress.

(** [calculate_honesty_score]: returns the smoothed score and the engine
    with its history extended (and trimmed to [max_history]). *)
Definition calculate_honesty_score (self : t)
    (facial_stress voice_stress pulse_stress : Q) : Q * t :=
  let honesty_score := instantaneous_honesty self facial_stress voice_stress pulse_stress in
  let h1 := honesty_history self ++ [honesty_score] in
  let h2 := if (max_history self <? length h1)%nat then tl h1 else h1 in
  let smoothed_score := np_mean h2 in
  (smoothed_score,
   mk (facial_weight self) (voice_weight self) (pulse_weight self) h2 (max_history self)).

Definition get_alert_level (honesty_score : Q) : AlertLevel :=
  if Qltb honesty_score 40 then HIGH_STRESS
  else if Qltb honesty_score 60 then MEDIUM_STRESS
  else LOW_STRESS.

Record ComponentScores : Type := mkComponentScores {
  facial_contribution : Q;
  voice_contribution : Q;
  pulse_contribution : Q;
  facial_raw : Q;
  voice_raw : Q;
  pulse_raw : Q
}.

(** The dictionary [analyze] returns (the templated interpretation text
    is a formatting of [honesty_score] and [alert_level] and is left out). *)
Record Analysis : Type := mkAnalysis {
  honesty_score : Q;
  alert_level : string;
  component_scores : ComponentScores;
  weights : Q * Q * Q
}.

Definition analyze (self : t) (facial_stress voice_stress pulse_stress : Q) : Analysis * t :=
  let '(honesty_score, self') :=
    calculate_honesty_score self facial_stress voice_stress pulse_stress in
  let alert_level := get_alert_level honesty_score in
  let component_scores :=
    mkComponentScores
      (facial_stress * facial_weight self')
      (voice_stress * voice_weight self')
      (pulse_stress * pulse_weight self')
      facial_stress voice_stress pulse_stress in
  (mkAnalysis honesty_score (AlertLevel_value alert_level) component_scores
     (facial_weight self', voice_weight self', pulse_weight self'),
   self').

(** [reset]: [self.honesty_history.clear()]. *)
Definition reset (self : t) : t :=
  mk (facial_weight self) (voice_weight self) (pulse_weight self) [] (max_history self).

(** [update_weights]: assigns the supplied weights, then divides each of
    the three by their sum.  The first division raises
    [ZeroDivisionError] when the sum is zero, leaving the assigned but
    unnormalised weights in the object. *)
Definition assigned (new : option Q) (old : Q) : Q :=
  match new with
  | Some w => w
  | None => old
  end.

Definition update_weights (self : t) (facial voice pulse : option Q) : Outcome unit * t :=
  let fw := assigned facial (facial_weight self) in
  let vw := assigned voice (voice_weight self) in
  let pw := assigned pulse (pulse_weight self) in
  let total := fw + vw + pw in
  if Qeqb total 0
  then (Raised ZeroDivisionError,
        mk fw vw pw (honesty_history self) (max_history self))
  else (Returned tt,
        mk (fw / total) (vw / total) (pw / total)
           (honesty_history self) (max_history self)).

Definition weight_sum (self : t) : Q :=
  facial_weight self + voice_weight self + pulse_weight self.

End LogicEngine.

(** ** Video frames and face-mesh landmarks (supplied by OpenCV and MediaPipe) *)

Module Vision.

(** A BGR pixel of the video frame. *)
Definition Pixel : Type := (Z * Z * Z)%type.

Definition green (p : Pixel) : Z := snd (fst p).

(** A frame: [frame.shape[:2]] and the pixel at (row, column). *)
Record Frame : Type := mkFrame {
  img_height : nat;
  img_width : nat;
  pixel_at : nat -> nat -> Pixel
}.

(** One MediaPipe landmark: normalised coordinates. *)
Record Landmark : Type := mkLandmark { lm_x : Q; lm_y : Q }.

(** [landmarks.landmark[idx]]; the face mesh supplies every index the
    source reads. *)
Definition Landmarks : Type := nat -> Landmark.

End Vision.
Import Vision.

(** ** src/bpm_estimator.py *)

Module BPM_Estimator.

(** scipy's signal routines, which the estimator calls but does not
    define: [signal.detrend], [signal.butter] followed by
    [signal.filtfilt], and the squared magnitude of bin [k] of [fft]. *)
Record SciPy : Type := mkSciPy {
  detrend : list Q -> list Q;
  butter_filtfilt : Q -> Q -> list Q -> list Q;
  fft_power : list Q -> nat -> Q
}.

Record t : Type := mk {
  fps : nat;
  buffer_size : nat;
  signal_buffer : list Q;
  min_bpm : Q;
  max_bpm : Q;
  min_hz : Q;
  max_hz : Q;
  current_bpm : Q;
  bpm_history : list Q
}.

Definition init (fps buffer_seconds : nat) : t :=
  mk fps (fps * buffer_seconds) [] 48 180 (48 / 60) (180 / 60) 0 [].

Definition forehead_indices : list nat :=
  [10; 338; 297; 332; 284; 251; 389; 356; 454; 323; 361; 288;
   397; 365; 379; 378; 400; 377; 152; 148; 176; 149; 150; 136]%nat.

Definition Zlist_min (xs : list Z) : Z :=
  match xs with
  | [] => 0%Z
  | x :: r => fold_left Z.min r x
  end.

Definition Zlist_max (xs : list Z) : Z :=
  match xs with
  | [] => 0%Z
  | x :: r => fold_left Z.max r x
  end.

(** A bound of a Python slice over a dimension of [n] elements: a
    negative bound counts from the end, and both are clipped to [0, n]. *)
Definition slice_bound (n : nat) (i : Z) : nat :=
  if (i <? 0)%Z then Z.to_nat (Z.max 0 (i + Z.of_nat n))
  else Nat.min (Z.to_nat i) n.

(** The bounding box of the forehead points, as the four slice bounds
    [(y_min, y_max, x_min, x_max)]. *)
Definition forehead_box (frame : Frame) (landmarks : Landmarks) : Z * Z * Z * Z :=
  let forehead_points :=
    map (fun idx =>
           let lm := landmarks idx in
           (py_int (lm_x lm * inject_Z (Z.of_nat (img_width frame))),
            py_int (lm_y lm * inject_Z (Z.of_nat (img_height frame)))))
        forehead_indices in
  let xs := map fst forehead_points in
  let ys := map snd forehead_points in
  let x_min := Z.max 0 (Zlist_min xs - 10) in
  let x_max := Z.min (Z.of_nat (img_width frame)) (Zlist_max xs + 10) in
  let y_min := Z.max 0 (Zlist_min ys - 10) in
  let y_max := Z.min (Z.of_nat (img_height frame)) (Zlist_max ys + 10) in
  (y_min, y_max, x_min, x_max).

(** [frame[y_min:y_max, x_min:x_max]] as rows of pixels. *)
Definition frame_slice (frame : Frame) (y_min y_max x_min x_max : Z) : list (list Pixel) :=
  let r0 := slice_bound (img_height frame) y_min in
  let r1 := slice_bound (img_height frame) y_max in
  let c0 := slice_bound (img_width frame) x_min in
  let c1 := slice_bound (img_width frame) x_max in
  map (fun y => map (fun x => pixel_at frame y x) (seq c0 (c1 - c0)))
      (seq r0 (r1 - r0)).

(** [roi.size]: rows times columns times the three channels. *)
Definition roi_size (roi : list (list Pixel)) : nat :=
  (length roi * length (hd [] roi) * 3)%nat.

(** The region [roi] the source slices out of the frame. *)
Definition forehead_region (frame : Frame) (landmarks : Landmarks) : list (list Pixel) :=
  let '(y_min, y_max, x_min, x_max) := forehead_box frame landmarks in
  frame_slice frame y_min y_max x_min x_max.

Definition _extract_forehead_roi (frame : Frame) (landmarks : option Landmarks)
  : option (list (list Pixel)) :=
  match landmarks with
  | None => None
  | Some landmarks =>
      let roi := forehead_region frame landmarks in
      if (roi_size roi =? 0)%nat then None else Some roi
  end.

(** Spatial mean of the green channel of the region. *)
Definition _extract_ppg_signal (roi : list (list Pixel)) : Q :=
  np_mean (map (fun p => inject_Z (green p)) (concat roi)).

Definition _apply_bandpass_filter (sp : SciPy) (self : t) (signal_data : list Q) : list Q :=
  let nyquist := inject_Z (Z.of_nat (fps self)) / 2 in
  let low := min_hz self / nyquist in
  let high := max_hz self / nyquist in
  let low := Qmax 0.001 (Qmin low 0.999) in
  let high := Qmax 0.001 (Qmin high 0.999) in
  if Qle_bool high low then signal_data
  else butter_filtfilt sp low high signal_data.

(** [scipy.fft.fftfreq(n, d)]: bins [0 .. (n-1)/2] are non-negative, the
    remaining ones negative. *)
Definition fftfreq (n : nat) (d : Q) : list Q :=
  map (fun k =>
         if (k <=? (n - 1) / 2)%nat
         then inject_Z (Z.of_nat k) / (d * inject_Z (Z.of_nat n))
         else (inject_Z (Z.of_nat k) - inject_Z (Z.of_nat n)) / (d * inject_Z (Z.of_nat n)))
      (seq 0 n).

(** [np.argmax] on (frequency, power) pairs: the first pair of greatest
    power. *)
Definition argmax_power (best : Q * Q) (rest : list (Q * Q)) : Q * Q :=
  fold_left (fun b c => if Qltb (snd b) (snd c) then c else b) rest best.

Definition _estimate_bpm_fft (sp : SciPy) (self : t) (signal_data : list Q) : Q :=
  let N := length signal_data in
  let fft_freq := fftfreq N (1 / inject_Z (Z.of_nat (fps self))) in
  let fft_pow := map (fft_power sp signal_data) (seq 0 N) in
  let positive := filter (fun fp => Qltb 0 (fst fp)) (combine fft_freq fft_pow) in
  let valid :=
    filter (fun fp => Qle_bool (min_hz self) (fst fp) && Qle_bool (fst fp) (max_hz self))
           positive in
  match valid with
  | [] => 0
  | first :: rest =>
      let dominant_freq := fst (argmax_power first rest) in
      dominant_freq * 60
  end.

(** The second component of the tuple [process_frame] returns. *)
Inductive Metrics : Type :=
| ErrorMetrics (error : string)
| BufferingMetrics (status : string) (progress : Q)
| FrameMetrics (bpm raw_bpm stress_score : Q) (buffer_size : nat)
               (signal_quality : string).

(** The stress computation written inline in [process_frame]. *)
Definition inline_stress_score (current_bpm : Q) : Q :=
  if Qltb 90 current_bpm then Qmin 100 (((current_bpm - 90) / 40) * 100)
  else if Qltb current_bpm 50 then 20
  else 0.

Definition process_frame (sp : SciPy) (self : t) (frame : Frame)
    (landmarks : option Landmarks) : (Q * Metrics) * t :=
  match _extract_forehead_roi frame landmarks with
  | None => ((current_bpm self, ErrorMetrics "Could not extract forehead ROI"), self)
  | Some forehead_roi =>
      let ppg_value := _extract_ppg_signal forehead_roi in
      let buf := deque_append (buffer_size self) (signal_buffer self) ppg_value in
      let self1 :=
        mk (fps self) (buffer_size self) buf (min_bpm self) (max_bpm self)
           (min_hz self) (max_hz self) (current_bpm self) (bpm_history self) in
      let min_buffer_size := (fps self * 5)%nat in
      if (length buf <? min_buffer_size)%nat then
        let progress := Qlen buf / inject_Z (Z.of_nat min_buffer_size) * 100 in
        ((0, BufferingMetrics "buffering" progress), self1)
      else
        let signal_data := detrend sp buf in
        let filtered_signal := _apply_bandpass_filter sp self1 signal_data in
        let bpm := _estimate_bpm_fft sp self1 filtered_signal in
        let hist := deque_append 10 (bpm_history self1) bpm in
        let cur := np_median hist in
        let stress_score := inline_stress_score cur in
        let self2 :=
          mk (fps self) (buffer_size self) buf (min_bpm self) (max_bpm self)
             (min_hz self) (max_hz self) cur hist in
        ((cur,
          FrameMetrics cur bpm stress_score (length buf)
            (if Qle_bool 50 cur && Qle_bool cur 180 then "good" else "poor")),
         self2)
  end.

Definition get_stress_score (self : t) : Q :=
  if Qeqb (current_bpm self) 0 then 0
  else if Qltb 90 (current_bpm self)
       then Qmin 100 (((current_bpm self - 90) / 40) * 100)
  else if Qltb (current_bpm self) 50 then 20
  else 0.

Definition reset (self : t) : t :=
  mk (fps self) (buffer_size self) [] (min_bpm self) (max_bpm self)
     (min_hz self) (max_hz self) 0 [].

(** States an estimator goes through: construction, then any sequence
    of [process_frame] and [reset] calls. *)
Inductive reachable (sp : SciPy) (fps0 buffer_seconds : nat) : t -> Prop :=
| reach_init : reachable sp fps0 buffer_seconds (init fps0 buffer_seconds)
| reach_process_frame : forall self frame landmarks,
    reachable sp fps0 buffer_seconds self ->
    reachable sp fps0 buffer_seconds (snd (process_frame sp self frame landmarks))
| reach_reset : forall self,
    reachable sp fps0 buffer_seconds self ->
    reachable sp fps0 buffer_seconds (reset self).

(** What holds of every state an estimator can be in. *)
Definition estimator_inv (fps0 buffer_seconds : nat) (self : t) : Prop :=
  fps self = fps0 /\
  buffer_size self = (fps0 * buffer_seconds)%nat /\
  (length (signal_buffer self) <= buffer_size self)%nat /\
  ((length (signal_buffer self) < fps self * 5)%nat ->
   current_bpm self = 0 /\ bpm_history self = []).

End BPM_Estimator.

(** ** src/facial_analysis.py *)

Module FacialAnalysis.

(** The MediaPipe capability the analyser holds: face-mesh detection
    ([results.multi_face_landmarks], first face) and landmark drawing. *)
Record MediaPipe : Type := mkMediaPipe {
  face_mesh_process : Frame -> option Landmarks;
  draw_landmarks : Frame -> Landmarks -> Frame
}.

Record t : Type := mk {
  window_size : nat;
  sensitivity : Q;
  eyebrow_distances : list Q;
  lip_distances : list Q;
  blink_history : list Q;
  frame_count : nat;
  last_blink_state : bool;
  blink_count : nat
}.

Definition init (window_size : nat) (sensitivity : Q) : t :=
  mk window_size sensitivity [] [] [] 0 false 0.

Definition LEFT_EYEBROW : list nat := [70; 63; 105; 66; 107]%nat.
Definition RIGHT_EYEBROW : list nat := [336; 296; 334; 293; 300]%nat.
Definition LEFT_EYE_UPPER : list nat := [159; 145]%nat.
Definition LEFT_EYE_LOWER : list nat := [23; 145]%nat.
Definition RIGHT_EYE_UPPER : list nat := [386; 374]%nat.
Definition RIGHT_EYE_LOWER : list nat := [253; 374]%nat.
Definition LIP_UPPER : list nat := [13]%nat.
Definition LIP_LOWER : list nat := [14]%nat.
Definition LIP_LEFT_CORNER : list nat := [61]%nat.
Definition LIP_RIGHT_CORNER : list nat := [291]%nat.

Section WithSqrt.

(** [np.sqrt], behind [np.linalg.norm] and [np.std]. *)
Variable np_sqrt : Q -> Q.

Definition _euclidean_distance (point1 point2 : Q * Q) : Q :=
  np_sqrt ((fst point1 - fst point2) ^ 2 + (snd point1 - snd point2) ^ 2).

(** [np.std]: the population standard deviation. *)
Definition np_std (xs : list Q) : Q :=
  let m := np_mean xs in
  np_sqrt (np_mean (map (fun x => Qabs (x - m) ^ 2) xs)).

Definition _get_landmark_coords (landmarks : Landmarks) (indices : list nat)
    (img_width img_height : nat) : list (Q * Q) :=
  map (fun idx =>
         let lm := landmarks idx in
         (lm_x lm * inject_Z (Z.of_nat img_width),
          lm_y lm * inject_Z (Z.of_nat img_height)))
      indices.

Definition _compute_eyebrow_distance (landmarks : Landmarks)
    (img_width img_height : nat) : Q :=
  let left_eyebrow := _get_landmark_coords landmarks LEFT_EYEBROW img_width img_height in
  let right_eyebrow := _get_landmark_coords landmarks RIGHT_EYEBROW img_width img_height in
  let eyebrow_y := np_mean [np_mean (map snd left_eyebrow); np_mean (map snd right_eyebrow)] in
  let left_eye := _get_landmark_coords landmarks LEFT_EYE_UPPER img_width img_height in
  let right_eye := _get_landmark_coords landmarks RIGHT_EYE_UPPER img_width img_height in
  let eye_y := np_mean [np_mean (map snd left_eye); np_mean (map snd right_eye)] in
  eye_y - eyebrow_y.

Definition _compute_lip_distance (landmarks : Landmarks)
    (img_width img_height : nat) : Q :=
  let upper_lip := _get_landmark_coords landmarks LIP_UPPER img_width img_height in
  let lower_lip := _get_landmark_coords landmarks LIP_LOWER img_width img_height in
  let left_corner := _get_landmark_coords landmarks LIP_LEFT_CORNER img_width img_height in
  let right_corner := _get_landmark_coords landmarks LIP_RIGHT_CORNER img_width img_height in
  let vertical_dist := _euclidean_distance (hd (0, 0) upper_lip) (hd (0, 0) lower_lip) in
  let horizontal_dist := _euclidean_distance (hd (0, 0) left_corner) (hd (0, 0) right_corner) in
  vertical_dist / (horizontal_dist + 0.000001).

Definition _detect_blink (landmarks : Landmarks) (img_width img_height : nat) : bool :=
  let left_upper := _get_landmark_coords landmarks LEFT_EYE_UPPER img_width img_height in
  let left_lower := _get_landmark_coords landmarks LEFT_EYE_LOWER img_width img_height in
  let left_vertical := _euclidean_distance (hd (0, 0) left_upper) (hd (0, 0) left_lower) in
  let right_upper := _get_landmark_coords landmarks RIGHT_EYE_UPPER img_width img_height in
  let right_lower := _get_landmark_coords landmarks RIGHT_EYE_LOWER img_width img_height in
  let right_vertical := _euclidean_distance (hd (0, 0) right_upper) (hd (0, 0) right_lower) in
  let avg_vertical := (left_vertical + right_vertical) / 2 in
  let blink_threshold := 5 in
  Qltb avg_vertical blink_threshold.

Definition _compute_anomaly_score (self : t) (current_value : Q) (history : list Q) : Q :=
  if (length history <? 5)%nat then 0
  else
    let baseline := np_mean history in
    let std_dev := np_std history + 0.000001 in
    let z_score := Qabs (current_value - baseline) / std_dev in
    Qmin 100 ((z_score / sensitivity self) * 100).

(** The anomaly formula as the specification words it, for value [x]
    against window [win]: min(100, (|x - mean| / (std + eps)) / sensitivity * 100). *)
Definition z_score_anomaly (sensitivity x : Q) (win : list Q) : Q :=
  Qmin 100 (Qabs (x - np_mean win) / (np_std win + 0.000001) / sensitivity * 100).

(** The metrics dictionary of [analyze_frame]. *)
Inductive Metrics : Type :=
| ErrorMetrics (error : string)
| FaceMetrics (eyebrow_distance eyebrow_anomaly lip_distance lip_anomaly
               blink_rate blink_anomaly stress_score : Q).

Variable mp : MediaPipe.

Definition analyze_frame (self : t) (frame : Frame)
  : (Q * Metrics * option Frame) * t :=
  let self0 :=
    mk (window_size self) (sensitivity self) (eyebrow_distances self)
       (lip_distances self) (blink_history self) (S (frame_count self))
       (last_blink_state self) (blink_count self) in
  let img_height := Vision.img_height frame in
  let img_width := Vision.img_width frame in
  match face_mesh_process mp frame with
  | None => ((0, ErrorMetrics "No face detected", None), self0)
  | Some landmarks =>
      let eyebrow_dist := _compute_eyebrow_distance landmarks img_width img_height in
      let lip_dist := _compute_lip_distance landmarks img_width img_height in
      let is_blinking := _detect_blink landmarks img_width img_height in
      let eyebrows := deque_append (window_size self) (eyebrow_distances self) eyebrow_dist in
      let lips := deque_append (window_size self) (lip_distances self) lip_dist in
      let new_blink := is_blinking && negb (last_blink_state self) in
      let blink_count' := if new_blink then S (blink_count self) else blink_count self in
      let blinks := deque_append 60 (blink_history self) (if new_blink then 1 else 0) in
      let blink_rate := (Qsum blinks / Qlen blinks) * 60 * 30 in
      let eyebrow_anomaly := _compute_anomaly_score self eyebrow_dist eyebrows in
      let lip_anomaly := _compute_anomaly_score self lip_dist lips in
      let blink_anomaly :=
        if Qltb 25 blink_rate then Qmin 100 (((blink_rate - 25) / 20) * 100)
        else if Qltb blink_rate 10 then Qmin 100 (((10 - blink_rate) / 10) * 100)
        else 0 in
      let stress_score := eyebrow_anomaly * 0.4 + lip_anomaly * 0.3 + blink_anomaly * 0.3 in
      ((stress_score,
        FaceMetrics eyebrow_dist eyebrow_anomaly lip_dist lip_anomaly
                    blink_rate blink_anomaly stress_score,
        Some (draw_landmarks mp frame landmarks)),
       mk (window_size self) (sensitivity self) eyebrows lips blinks
          (S (frame_count self)) is_blinking blink_count')
  end.

End WithSqrt.

Definition reset (self : t) : t :=
  mk (window_size self) (sensitivity self) [] [] [] 0 false 0.

(** The anomaly entries of a metrics dictionary. *)
Definition eyebrow_anomaly_of (m : Metrics) : option Q :=
  match m with
  | ErrorMetrics _ => None
  | FaceMetrics _ a _ _ _ _ _ => Some a
  end.

Definition lip_anomaly_of (m : Metrics) : option Q :=
  match m with
  | ErrorMetrics _ => None
  | FaceMetrics _ _ _ a _ _ _ => Some a
  end.

End FacialAnalysis.

(** ** src/voice_stress.py *)

Module VoiceStress.

(** One analysis frame of [librosa.pyin]: the pitch estimate ([None]
    stands for NaN, which pyin writes for unvoiced frames) and the
    voiced flag. *)
Record PitchFrame : Type := mkPitchFrame {
  f0 : option Q;
  voiced_flag : bool
}.

(** The librosa and numpy routines the analyser calls but does not
    define.  The librosa calls may raise. *)
Record Librosa : Type := mkLibrosa {
  pyin : list Q -> nat -> Outcome (list PitchFrame);
  feature_rms : list Q -> Outcome (list Q);
  np_sqrt : Q -> Q
}.

Record FeatureMetrics : Type := mkFeatureMetrics {
  pitch_mean : Q;
  pitch_std : Q;
  jitter : Q;
  shimmer : Q;
  energy : Q;
  stress_score : Q
}.

Record t : Type := mk {
  sample_rate : nat;
  chunk_duration : Q;
  chunk_size : nat;
  audio_buffer : list Q;
  pitch_history : list Q;
  jitter_history : list Q;
  shimmer_history : list Q;
  energy_history : list Q;
  current_metrics : FeatureMetrics
}.

Definition zero_metrics : FeatureMetrics := mkFeatureMetrics 0 0 0 0 0 0.

Definition init (sample_rate : nat) (chunk_duration : Q) : t :=
  mk sample_rate chunk_duration
     (Z.to_nat (py_int (inject_Z (Z.of_nat sample_rate) * chunk_duration)))
     [] [] [] [] [] zero_metrics.

(** [_audio_callback]: [self.audio_buffer.extend(audio_data)] on a deque
    of capacity [sample_rate * 5]. *)
Definition _audio_callback (self : t) (audio_data : list Q) : t :=
  mk (sample_rate self) (chunk_duration self) (chunk_size self)
     (fold_left (deque_append (sample_rate self * 5)) audio_data (audio_buffer self))
     (pitch_history self) (jitter_history self) (shimmer_history self)
     (energy_history self) (current_metrics self).

Section WithLibrosa.

Variable lr : Librosa.

Definition np_std (xs : list Q) : Q :=
  let m := np_mean xs in
  np_sqrt lr (np_mean (map (fun x => Qabs (x - m) ^ 2) xs)).

(** Values of an array that are not NaN. *)
Definition drop_nan (xs : list (option Q)) : list Q :=
  flat_map (fun x => match x with Some v => [v] | None => [] end) xs.

Definition _extract_pitch (self : t) (audio_chunk : list Q) : Outcome (Q * Q) :=
  frames <- pyin lr audio_chunk (sample_rate self) ;;
  let voiced_f0 := map f0 (filter voiced_flag frames) in
  if (length voiced_f0 =? 0)%nat then Returned (0, 0)
  else
    let voiced_f0 := drop_nan voiced_f0 in
    if (length voiced_f0 =? 0)%nat then Returned (0, 0)
    else Returned (np_mean voiced_f0, np_std voiced_f0).

Definition _calculate_jitter (self : t) (audio_chunk : list Q) : Outcome Q :=
  try_except
    (frames <- pyin lr audio_chunk (sample_rate self) ;;
     let f0 := drop_nan (map f0 frames) in
     if (length f0 <? 2)%nat then Returned 0
     else
       let periods := map (fun f => 1 / (f + 0.000001)) f0 in
       let period_diffs := abs_diff periods in
       let mean_period := np_mean periods in
       let jitter := (np_mean period_diffs / mean_period) * 100 in
       Returned (Qmin jitter 100))
    (fun _ => Returned 0).

Definition _calculate_shimmer (self : t) (audio_chunk : list Q) : Outcome Q :=
  rms <- feature_rms lr audio_chunk ;;
  if (length rms <? 2)%nat then Returned 0
  else
    let amplitude_diffs := abs_diff rms in
    let mean_amplitude := np_mean rms in
    if Qltb mean_amplitude 0.000001 then Returned 0
    else
      let shimmer := (np_mean amplitude_diffs / mean_amplitude) * 100 in
      Returned (Qmin shimmer 100).

Definition _calculate_energy (self : t) (audio_chunk : list Q) : Q :=
  np_sqrt lr (np_mean (map (fun x => x ^ 2) audio_chunk)).

(** [np.max(np.abs(chunk))]; numpy raises on an empty array. *)
Definition np_max_abs (xs : list Q) : Outcome Q :=
  match xs with
  | [] => Raised (ValueError "zero-size array to reduction operation maximum")
  | x :: r => Returned (fold_left Qmax (map Qabs r) (Qabs x))
  end.

(** The window [analyze_audio] hands to the extractors: the last
    [chunk_size] samples divided by their peak when it is positive. *)
Definition normalized_chunk (self : t) (peak : Q) : list Q :=
  let audio_chunk := last_n (chunk_size self) (audio_buffer self) in
  if Qltb 0 peak then map (fun x => x / peak) audio_chunk else audio_chunk.

(** The second component of the tuple [analyze_audio] returns. *)
Inductive Metrics : Type :=
| BufferingMetrics (status : string) (progress : Q)
| Features (m : FeatureMetrics).

Definition analyze_audio (self : t) : Outcome (Q * Metrics) * t :=
  if (length (audio_buffer self) <? chunk_size self)%nat then
    let progress :=
      Qlen (audio_buffer self) / inject_Z (Z.of_nat (chunk_size self)) * 100 in
    (Returned (0, BufferingMetrics "buffering" progress), self)
  else
    let audio_chunk := last_n (chunk_size self) (audio_buffer self) in
    let extracted :=
      peak <- np_max_abs audio_chunk ;;
      let audio_chunk :=
        if Qltb 0 peak then map (fun x => x / peak) audio_chunk else audio_chunk in
      pitch <- _extract_pitch self audio_chunk ;;
      jitter <- _calculate_jitter self audio_chunk ;;
      shimmer <- _calculate_shimmer self audio_chunk ;;
      Returned (pitch, jitter, shimmer, _calculate_energy self audio_chunk) in
    match extracted with
    | Raised e => (Raised e, self)
    | Returned (pitch_mean, pitch_std, jitter, shimmer, energy) =>
        let valid := Qltb 0 pitch_mean in
        let ph := if valid then deque_append 30 (pitch_history self) pitch_std
                  else pitch_history self in
        let jh := if valid then deque_append 30 (jitter_history self) jitter
                  else jitter_history self in
        let sh := if valid then deque_append 30 (shimmer_history self) shimmer
                  else shimmer_history self in
        let eh := if valid then deque_append 30 (energy_history self) energy
                  else energy_history self in
        let pitch_component :=
          if (5 <? length ph)%nat then
            let baseline_pitch_std := np_median ph in
            if Qltb 0 baseline_pitch_std
            then [Qmin 100 ((pitch_std / baseline_pitch_std) * 50)]
            else []
          else [] in
        let jitter_stress := Qmin 100 ((jitter / 2) * 100) in
        let shimmer_stress := Qmin 100 ((shimmer / 5) * 100) in
        let stress_components := pitch_component ++ [jitter_stress; shimmer_stress] in
        let stress_score :=
          if (0 <? length stress_components)%nat then np_mean stress_components else 0 in
        let metrics :=
          mkFeatureMetrics pitch_mean pitch_std jitter shimmer energy stress_score in
        (Returned (stress_score, Features metrics),
         mk (sample_rate self) (chunk_duration self) (chunk_size self)
            (audio_buffer self) ph jh sh eh metrics)
    end.

End WithLibrosa.

Definition get_stress_score (self : t) : Q := stress_score (current_metrics self).

Definition reset (self : t) : t :=
  mk (sample_rate self) (chunk_duration self) (chunk_size self)
     [] [] [] [] [] zero_metrics.

End VoiceStress.

(** ** main.py: the command-line host *)

Module LieDarSystem.

Record Results : Type := mkResults {
  honesty_score : Q;
  alert_level : string;
  facial_raw : Q;
  voice_raw : Q;
  pulse_raw : Q;
  bpm : Q
}.

Record t : Type := mk {
  has_facial : bool;
  facial_analyzer : option FacialAnalysis.t;
  bpm_estimator : BPM_Estimator.t;
  voice_analyzer : VoiceStress.t;
  logic_engine : LogicEngine.t;
  current_results : Results
}.

(** [__init__] once the camera is open; [has_facial] tells whether the
    facial analyser could be constructed. *)
Definition init (has_facial : bool) (fps : nat) : Outcome t :=
  engine <- (if has_facial then LogicEngine.init 0.40 0.30 0.30
             else LogicEngine.init 0.00 0.60 0.40) ;;
  Returned
    (mk has_facial
        (if has_facial then Some (FacialAnalysis.init 30 2) else None)
        (BPM_Estimator.init fps 10)
        (VoiceStress.init (Z.to_nat 16000) 1)
        engine
        (mkResults 50 "medium_stress" 0 0 0 0)).

(** The fusion part of one pass of [_main_loop]: the three stress scores
    and the BPM of this tick go through [logic_engine.analyze] and
    replace [current_results]. *)
Definition fuse (self : t) (facial_stress voice_stress pulse_stress bpm : Q) : t :=
  let '(results, engine) :=
    LogicEngine.analyze (logic_engine self) facial_stress voice_stress pulse_stress in
  let cs := LogicEngine.component_scores results in
  mk (has_facial self) (facial_analyzer self) (bpm_estimator self) (voice_analyzer self)
     engine
     (mkResults (LogicEngine.honesty_score results) (LogicEngine.alert_level results)
        (LogicEngine.facial_raw cs) (LogicEngine.voice_raw cs) (LogicEngine.pulse_raw cs)
        bpm).

(** [reset]: the four component resets in order; without a facial
    analyser the first call fails on [None]. *)
Definition reset (self : t) : Outcome unit * t :=
  match facial_analyzer self with
  | None => (Raised (AttributeError "'NoneType' object has no attribute 'reset'"), self)
  | Some fa =>
      (Returned tt,
       mk (has_facial self) (Some (FacialAnalysis.reset fa))
          (BPM_Estimator.reset (bpm_estimator self))
          (VoiceStress.reset (voice_analyzer self))
          (LogicEngine.reset (logic_engine self))
          (current_results self))
  end.

End LieDarSystem.

(** ** main_gui.py: the desktop host *)

Module LieDarGUI.

Record t : Type := mk {
  voice_analyzer : VoiceStress.t;
  logic_engine : LogicEngine.t;
  honesty_score : Q;
  voice_stress : Q;
  pulse_stress : Q;
  bpm : Q;
  alert_level : string
}.

Definition init : Outcome t :=
  engine <- LogicEngine.init 0.0 0.60 0.40 ;;
  Returned (mk (VoiceStress.init (Z.to_nat 16000) 1) engine 50 0 0 75 "medium_stress").

(** [reset]: the voice analyser is reset and the displayed score set
    back to 50. *)
Definition reset (self : t) : t :=
  mk (VoiceStress.reset (voice_analyzer self)) (logic_engine self)
     50 (voice_stress self) (pulse_stress self) (bpm self) (alert_level self).

End LieDarGUI.

(** ** The scalar formulas of the source in IEEE binary64 *)

Module Binary64.

(** Lines 92-104 of logic_engine.py on inputs already inside [0,100]. *)
Definition instantaneous_honesty (w_f w_v w_p facial voice pulse : float) : float :=
  (100 - (w_f * facial + w_v * voice + w_p * pulse))%float.

(** [get_alert_level] on a binary64 score. *)
Definition get_alert_level (honesty_score : float) : LogicEngine.AlertLevel :=
  if (honesty_score <? 40)%float then LogicEngine.HIGH_STRESS
  else if (honesty_score <? 60)%float then LogicEngine.MEDIUM_STRESS
  else LogicEngine.LOW_STRESS.

(** [get_stress_score] of bpm_estimator.py as a function of the BPM;
    [min(100.0, x)] returns [x] when [x < 100.0]. *)
Definition get_stress_score (current_bpm : float) : float :=
  if (current_bpm =? 0)%float then 0%float
  else if (90 <? current_bpm)%float then
    let x := (((current_bpm - 90) / 40) * 100)%float in
    if (x <? 100)%float then x else 100%float
  else if (current_bpm <? 50)%float then 20%float
  else 0%float.

(** Lines 235-238 of logic_engine.py: the three divisions by the total. *)
Definition renormalize (facial voice pulse : float) : float * float * float :=
  let total := (facial + voice + pulse)%float in
  ((facial / total)%float, (voice / total)%float, (pulse / total)%float).

End Binary64.

(** ** Concrete inputs used to run the embedding *)

Module Examples.

(** A 100 x 100 frame of uniform colour, green level 100. *)
Definition flat_frame : Frame := mkFrame 100 100 (fun _ _ => (0, 100, 0)%Z).

(** A frame without pixels. *)
Definition empty_frame : Frame := mkFrame 0 0 (fun _ _ => (0, 0, 0)%Z).

(** A face mesh whose landmarks all sit at the centre of the image. *)
Definition centred_landmarks : Landmarks := fun _ => mkLandmark 0.5 0.5.

(** Signal routines that leave the data as it is, with a flat spectrum. *)
Definition plain_scipy : BPM_Estimator.SciPy :=
  BPM_Estimator.mkSciPy (fun xs => xs) (fun _ _ xs => xs) (fun _ _ => 1).

(** [n] calls of [process_frame] on the same frame and landmarks. *)
Fixpoint feed (sp : BPM_Estimator.SciPy) (n : nat) (self : BPM_Estimator.t)
    (frame : Frame) (landmarks : option Landmarks) : BPM_Estimator.t :=
  match n with
  | O => self
  | S k => feed sp k (snd (BPM_Estimator.process_frame sp self frame landmarks))
             frame landmarks
  end.

(** A librosa whose pitch tracker rejects its input, as [librosa.pyin]
    does for a buffer holding a non-finite sample. *)
Definition rejecting_librosa : VoiceStress.Librosa :=
  VoiceStress.mkLibrosa
    (fun _ _ => Raised (LibraryError "Audio buffer is not finite everywhere"))
    (fun _ => Returned [])
    (fun x => x).

(** A voice analyser with a one-second window of four samples, filled. *)
Definition filled_voice : VoiceStress.t :=
  VoiceStress._audio_callback (VoiceStress.init 4 1) [0.5; -0.25; 0.5; 0.125].

(** A face mesh that finds the centred landmarks in every frame. *)
Definition steady_mediapipe : FacialAnalysis.MediaPipe :=
  FacialAnalysis.mkMediaPipe (fun _ => Some centred_landmarks) (fun frame _ => frame).

End Examples.

(** ** Sequences of calls on the fusion engine *)

Module Fusion.

(** One tick's three stress scores: facial, voice, pulse. *)
Definition Sample : Type := (Q * Q * Q)%type.

Definition honesty_of (self : LogicEngine.t) (s : Sample) : Q :=
  LogicEngine.instantaneous_honesty self (fst (fst s)) (snd (fst s)) (snd s).

(** The engine after [calculate_honesty_score] on each sample in turn. *)
Definition feed (self : LogicEngine.t) (samples : list Sample) : LogicEngine.t :=
  fold_left
    (fun e s => snd (LogicEngine.calculate_honesty_score e (fst (fst s)) (snd (fst s)) (snd s)))
    samples self.

(** Severity of an alert level: Low 0, Medium 1, High 2. *)
Definition severity (a : LogicEngine.AlertLevel) : nat :=
  match a with
  | LogicEngine.LOW_STRESS => 0
  | LogicEngine.MEDIUM_STRESS => 1
  | LogicEngine.HIGH_STRESS => 2
  end.

End Fusion.

(** * Properties *)

(** ** Comparisons, clipping and bounded deques *)

Lemma Qltb_lt (x y : Q) : Qltb x y = true <-> x < y.
Proof.
  unfold Qltb. rewrite negb_true_iff.
  split; intro H.
  - apply Qnot_le_lt. intro Hle. apply Qle_bool_iff in Hle. congruence.
  - destruct (Qle_bool y x) eqn:E; [|reflexivity].
    apply Qle_bool_iff in E. exfalso. exact (Qlt_not_le _ _ H E).
Qed.

Lemma Qltb_ge (x y : Q) : Qltb x y = false <-> y <= x.
Proof.
  unfold Qltb. rewrite negb_false_iff. apply Qle_bool_iff.
Qed.

Lemma Qeqb_eq (x y : Q) : Qeqb x y = true <-> x == y.
Proof. unfold Qeqb. apply Qeq_bool_iff. Qed.

Lemma Qeqb_neq (x y : Q) : Qeqb x y = false <-> ~ x == y.
Proof.
  unfold Qeqb. split; intro H.
  - intro E. apply Qeq_bool_iff in E. congruence.
  - destruct (Qeq_bool x y) eqn:E; [|reflexivity].
    apply Qeq_bool_iff in E. contradiction.
Qed.

Lemma np_clip_bounds (x lo hi : Q) : lo <= hi -> lo <= np_clip x lo hi <= hi.
Proof.
  intro Hlh. unfold np_clip. split.
  - apply Q.min_glb; [exact Hlh | apply Q.le_max_r].
  - apply Q.le_min_l.
Qed.


Lemma np_mean_singleton (x : Q) : np_mean [x] == x.
Proof. unfold np_mean, Qsum, Qlen. simpl. field. Qed.

Lemma deque_append_length_le {A : Type} (m : nat) (d : list A) (x : A) :
  (length d <= m -> length (deque_append m d x) <= m)%nat.
Proof.
  intro H. unfold deque_append.
  destruct (Nat.eqb_spec m 0) as [E|E]; [exact H|].
  destruct (Nat.ltb_spec (length d) m) as [L|L].
  - rewrite length_app. simpl. lia.
  - rewrite length_app. destruct d; simpl in *; lia.
Qed.

Lemma deque_append_length_mono {A : Type} (m : nat) (d : list A) (x : A) :
  (length d <= m -> length d <= length (deque_append m d x))%nat.
Proof.
  intro H. unfold deque_append.
  destruct (Nat.eqb_spec m 0) as [E|E]; [lia|].
  destruct (Nat.ltb_spec (length d) m) as [L|L].
  - rewrite length_app. simpl. lia.
  - rewrite length_app. destruct d; simpl in *; lia.
Qed.

Lemma deque_append_short {A : Type} (m : nat) (d : list A) (x : A) :
  (length d < m)%nat -> deque_append m d x = d ++ [x].
Proof.
  intro H. unfold deque_append.
  destruct (Nat.eqb_spec m 0) as [E|E]; [lia|].
  destruct (Nat.ltb_spec (length d) m) as [L|L]; [reflexivity | lia].
Qed.

(** [np_sort] returns its input reordered into ascending order, so
    [np_median] reads the middle of the sorted window. *)
Lemma insert_sorted_perm (x : Q) (xs : list Q) :
  Permutation (x :: xs) (insert_sorted x xs).
Proof.
  induction xs as [|y ys IH]; simpl.
  - apply Permutation_refl.
  - destruct (Qle_bool x y).
    + apply Permutation_refl.
    + apply perm_trans with (y :: x :: ys); [apply perm_swap|].
      apply perm_skip. exact IH.
Qed.

Lemma np_sort_perm (xs : list Q) : Permutation xs (np_sort xs).
Proof.
  induction xs as [|x xs IH]; simpl.
  - apply perm_nil.
  - apply perm_trans with (x :: np_sort xs); [apply perm_skip; exact IH|].
    apply insert_sorted_perm.
Qed.

Lemma insert_sorted_sorted (x : Q) (xs : list Q) :
  Sorted Qle xs -> Sorted Qle (insert_sorted x xs).
Proof.
  induction 1 as [|y ys Hs IH Hhd]; simpl.
  - repeat constructor.
  - destruct (Qle_bool x y) eqn:E.
    + apply Qle_bool_iff in E. repeat constructor; assumption.
    + assert (Hyx : y <= x).
      { apply Qlt_le_weak. apply Qltb_lt. unfold Qltb. rewrite E. reflexivity. }
      constructor; [exact IH|].
      destruct ys as [|z zs]; simpl.
      * constructor. exact Hyx.
      * destruct (Qle_bool x z); constructor; [exact Hyx|].
        inversion Hhd; assumption.
Qed.

Lemma np_sort_sorted (xs : list Q) : Sorted Qle (np_sort xs).
Proof.
  induction xs as [|x xs IH]; simpl.
  - constructor.
  - apply insert_sorted_sorted. exact IH.
Qed.

Lemma np_median_singleton (x : Q) : np_median [x] = x.
Proof. reflexivity. Qed.

(** ** The fusion engine *)

Section LogicEngineFacts.
Import LogicEngine.

Lemma history_after_call_last (h : list Q) (x : Q) (m : nat) :
  (0 < m)%nat ->
  last (if (m <? length (h ++ [x]))%nat then tl (h ++ [x]) else h ++ [x]) 0 = x.
Proof.
  intro Hm.
  destruct (Nat.ltb_spec m (length (h ++ [x]))) as [L|L].
  - destruct h as [|a r].
    + simpl in L. lia.
    + simpl. apply last_last.
  - apply last_last.
Qed.

(** C1: every call to calculate_honesty_score (and analyze) clamps the
    three stress inputs to [0,100], forms the combined stress
    w_f*facial + w_v*voice + w_p*pulse under the current weights and
    appends 100 - combined as the instantaneous honesty; the returned
    score is the mean of the history.  With weights (0.4, 0.3, 0.3), an
    empty history and inputs 30, 25, 20 the combined stress is 25.5 and
    the smoothed score is 74.5. *)
Theorem calculate_honesty_score_weighted_fusion :
  forall (self : LogicEngine.t) (facial voice pulse : Q),
    (0 < max_history self)%nat ->
    let f := np_clip facial 0 100 in
    let v := np_clip voice 0 100 in
    let p := np_clip pulse 0 100 in
    let combined :=
      facial_weight self * f + voice_weight self * v + pulse_weight self * p in
    let r := calculate_honesty_score self facial voice pulse in
    (0 <= f <= 100 /\ 0 <= v <= 100 /\ 0 <= p <= 100) /\
    last (honesty_history (snd r)) 0 = 100 - combined /\
    fst r = np_mean (honesty_history (snd r)) /\
    LogicEngine.honesty_score (fst (analyze self facial voice pulse)) = fst r /\
    snd (analyze self facial voice pulse) = snd r /\
    (honesty_history self = [] -> fst r == 100 - combined) /\
    (let e0 := LogicEngine.mk 0.4 0.3 0.3 [] 10 in
     LogicEngine.init 0.4 0.3 0.3 = Returned e0 /\
     0.4 * np_clip 30 0 100 + 0.3 * np_clip 25 0 100 + 0.3 * np_clip 20 0 100 == 25.5 /\
     honesty_history (snd (calculate_honesty_score e0 30 25 20)) = [instantaneous_honesty e0 30 25 20] /\
     instantaneous_honesty e0 30 25 20 == 74.5 /\
     fst (calculate_honesty_score e0 30 25 20) == 74.5 /\
     LogicEngine.honesty_score (fst (analyze e0 30 25 20)) == 74.5).
Proof.
  intros self facial voice pulse Hm f v p combined r.
  assert (H100 : 0 <= 100) by (vm_compute; discriminate).
  repeat split; try (apply np_clip_bounds; exact H100).
  - unfold r, calculate_honesty_score. cbn [snd honesty_history].
    apply history_after_call_last. exact Hm.
  - intro He. unfold r, calculate_honesty_score. cbn [fst].
    rewrite He. cbn [app length].
    destruct (Nat.ltb_spec (max_history self) 1) as [L|L]; [lia|].
    rewrite np_mean_singleton. reflexivity.
Qed.

(** The hypothesis of C1 holds for the engine the constructor builds. *)
Lemma calculate_honesty_score_weighted_fusion_witness :
  (0 < max_history (LogicEngine.mk 0.4 0.3 0.3 [] 10))%nat /\
  fst (calculate_honesty_score (LogicEngine.mk 0.4 0.3 0.3 [] 10) 30 25 20) == 74.5.
Proof.
  split.
  - simpl. lia.
  - apply (calculate_honesty_score_weighted_fusion (LogicEngine.mk 0.4 0.3 0.3 [] 10) 30 25 20).
    simpl. lia.
Defined.

(** A call of update_weights that zeroes all three weights: the
    division raises and the stored weights sum to 0, not to 1. *)
Lemma update_weights_all_zero_counterexample :
  fst (update_weights (LogicEngine.mk 0.4 0.3 0.3 [] 10) (Some 0) (Some 0) (Some 0))
    = Raised ZeroDivisionError /\
  weight_sum (snd (update_weights (LogicEngine.mk 0.4 0.3 0.3 [] 10)
                     (Some 0) (Some 0) (Some 0))) == 0 /\
  ~ weight_sum (snd (update_weights (LogicEngine.mk 0.4 0.3 0.3 [] 10)
                       (Some 0) (Some 0) (Some 0))) == 1.
Proof.
  repeat split.
  vm_compute. discriminate.
Qed.

(** C2 (amended): an update_weights call that sets any subset of the
    three weights to non-negative values whose resulting total
    facial + voice + pulse is finite (rationals are; binary64 totals
    that overflow are excluded, see [Binary64.renormalize]) and not
    zero returns normally and leaves the stored weights renormalised:
    each is the assigned weight divided by the total, all are
    non-negative, and their sum is 1 (hence within 1e-6 of 1.0). *)
Theorem update_weights_renormalizes :
  forall (self : LogicEngine.t) (facial voice pulse : option Q),
    0 <= assigned facial (facial_weight self) ->
    0 <= assigned voice (voice_weight self) ->
    0 <= assigned pulse (pulse_weight self) ->
    ~ assigned facial (facial_weight self) + assigned voice (voice_weight self)
      + assigned pulse (pulse_weight self) == 0 ->
    let total := assigned facial (facial_weight self) + assigned voice (voice_weight self)
                 + assigned pulse (pulse_weight self) in
    let r := update_weights self facial voice pulse in
    fst r = Returned tt /\
    facial_weight (snd r) = assigned facial (facial_weight self) / total /\
    voice_weight (snd r) = assigned voice (voice_weight self) / total /\
    pulse_weight (snd r) = assigned pulse (pulse_weight self) / total /\
    weight_sum (snd r) == 1 /\
    Qabs (weight_sum (snd r) - 1) < 0.000001 /\
    0 <= facial_weight (snd r) /\ 0 <= voice_weight (snd r) /\ 0 <= pulse_weight (snd r) /\
    honesty_history (snd r) = honesty_history self /\
    max_history (snd r) = max_history self.
Proof.
  intros self facial voice pulse Hf Hv Hp Ht total r.
  unfold r, update_weights.
  set (fw := assigned facial (facial_weight self)) in *.
  set (vw := assigned voice (voice_weight self)) in *.
  set (pw := assigned pulse (pulse_weight self)) in *.
  fold total.
  destruct (Qeqb total 0) eqn:E.
  - apply Qeqb_eq in E. contradiction.
  - cbn [fst snd weight_sum facial_weight voice_weight pulse_weight honesty_history
         max_history].
    assert (Hpos : 0 < total).
    { destruct (Qlt_le_dec 0 total) as [L|L]; [exact L|].
      exfalso. apply Ht. unfold total in *. lra. }
    assert (Hsum : fw / total + vw / total + pw / total == 1).
    { unfold total. field. exact Ht. }
    assert (Hinv : 0 < / total) by (apply Qinv_lt_0_compat; exact Hpos).
    assert (Hdiv : forall w, 0 <= w -> 0 <= w / total).
    { intros w Hw. unfold Qdiv. apply Qmult_le_0_compat;
        [exact Hw | apply Qlt_le_weak; exact Hinv]. }
    split; [reflexivity|].
    split; [reflexivity|]. split; [reflexivity|]. split; [reflexivity|].
    split; [exact Hsum|].
    split; [rewrite Hsum; vm_compute; reflexivity|].
    split; [apply Hdiv; exact Hf|].
    split; [apply Hdiv; exact Hv|].
    split; [apply Hdiv; exact Hp|].
    split; reflexivity.
Qed.

(** The hypotheses of C2 hold when the facial weight is withdrawn from
    the default weights: the stored weights become 0, 0.5 and 0.5. *)
Lemma update_weights_renormalizes_witness :
  fst (update_weights (LogicEngine.mk 0.4 0.3 0.3 [] 10) (Some 0) None None) = Returned tt /\
  facial_weight (snd (update_weights (LogicEngine.mk 0.4 0.3 0.3 [] 10) (Some 0) None None))
    == 0 /\
  voice_weight (snd (update_weights (LogicEngine.mk 0.4 0.3 0.3 [] 10) (Some 0) None None))
    == 0.5 /\
  pulse_weight (snd (update_weights (LogicEngine.mk 0.4 0.3 0.3 [] 10) (Some 0) None None))
    == 0.5 /\
  weight_sum (snd (update_weights (LogicEngine.mk 0.4 0.3 0.3 [] 10) (Some 0) None None))
    == 1.
Proof.
  assert (H0 : 0 <= 0) by (vm_compute; discriminate).
  assert (H3 : 0 <= 0.3) by (vm_compute; discriminate).
  assert (Ht : ~ 0 + 0.3 + 0.3 == 0) by (vm_compute; discriminate).
  destruct (update_weights_renormalizes (LogicEngine.mk 0.4 0.3 0.3 [] 10) (Some 0) None None
              H0 H3 H3 Ht) as (Hr & Hfw & Hvw & Hpw & Hsum & _).
  split; [exact Hr|].
  split; [rewrite Hfw; vm_compute; reflexivity|].
  split; [rewrite Hvw; vm_compute; reflexivity|].
  split; [rewrite Hpw; vm_compute; reflexivity|].
  exact Hsum.
Defined.

(** C3: get_alert_level is a threshold function of the honesty score:
    below 40 it is High, from 40 and below 60 Medium, from 60 on Low; in
    particular 39.99 is High, 40.00 and 59.99 are Medium, 60.00 is Low. *)
Theorem get_alert_level_thresholds :
  forall s : Q,
    (get_alert_level s = HIGH_STRESS <-> s < 40) /\
    (get_alert_level s = MEDIUM_STRESS <-> 40 <= s /\ s < 60) /\
    (get_alert_level s = LOW_STRESS <-> 60 <= s) /\
    get_alert_level 39.99 = HIGH_STRESS /\
    get_alert_level 40.00 = MEDIUM_STRESS /\
    get_alert_level 59.99 = MEDIUM_STRESS /\
    get_alert_level 60.00 = LOW_STRESS.
Proof.
  intro s. unfold get_alert_level.
  destruct (Qltb s 40) eqn:E40; destruct (Qltb s 60) eqn:E60;
    try apply Qltb_lt in E40; try apply Qltb_ge in E40;
    try apply Qltb_lt in E60; try apply Qltb_ge in E60;
    (split; [|split; [|split; [|repeat split]]]);
    try (split; intro H); try discriminate; try reflexivity; try lra.
Qed.

(** The command-line host after one fused sample and a reset: the
    engine's history is empty and its weights are the configured ones,
    yet the honesty score the host holds is still 74.5, not 50. *)
Lemma reset_honesty_not_neutral_counterexample :
  exists sys0 sys1,
    LieDarSystem.init true 30 = Returned sys0 /\
    LieDarSystem.reset (LieDarSystem.fuse sys0 30 25 20 0) = (Returned tt, sys1) /\
    honesty_history (LieDarSystem.logic_engine sys1) = [] /\
    LieDarSystem.honesty_score (LieDarSystem.current_results sys1) == 74.5 /\
    ~ LieDarSystem.honesty_score (LieDarSystem.current_results sys1) == 50.
Proof.
  eexists. eexists.
  split; [reflexivity|].
  split; [reflexivity|].
  split; [reflexivity|].
  split; vm_compute; [reflexivity | discriminate].
Qed.

(** C4 (amended): LogicEngine.reset clears the honesty smoothing history
    to empty and leaves the three modality weights (and the history
    bound) unchanged.  The engine keeps no smoothed score of its own:
    the first score computed after a reset is that sample's
    instantaneous honesty alone.  The neutral midpoint 50 is the value
    both hosts start with before any sample exists, and the value the
    desktop host's reset writes back. *)
Theorem reset_clears_history_keeps_weights :
  forall (self : LogicEngine.t) (facial voice pulse : Q),
    (0 < max_history self)%nat ->
    honesty_history (LogicEngine.reset self) = [] /\
    facial_weight (LogicEngine.reset self) = facial_weight self /\
    voice_weight (LogicEngine.reset self) = voice_weight self /\
    pulse_weight (LogicEngine.reset self) = pulse_weight self /\
    max_history (LogicEngine.reset self) = max_history self /\
    LogicEngine.reset (LogicEngine.reset self) = LogicEngine.reset self /\
    fst (calculate_honesty_score (LogicEngine.reset self) facial voice pulse)
      == instantaneous_honesty self facial voice pulse /\
    (forall has_facial fps,
        exists sys, LieDarSystem.init has_facial fps = Returned sys /\
                    LieDarSystem.honesty_score (LieDarSystem.current_results sys) = 50) /\
    (exists gui, LieDarGUI.init = Returned gui /\ LieDarGUI.honesty_score gui = 50) /\
    (forall gui, LieDarGUI.honesty_score (LieDarGUI.reset gui) = 50).
Proof.
  intros self facial voice pulse Hm.
  repeat split.
  - unfold calculate_honesty_score. cbn [fst LogicEngine.reset honesty_history max_history app length].
    destruct (Nat.ltb_spec (max_history self) 1) as [L|L]; [lia|].
    rewrite np_mean_singleton. reflexivity.
  - intros has_facial fps. destruct has_facial; eexists; split; reflexivity.
  - eexists. split; reflexivity.
Qed.

(** The hypothesis of C4 holds for the engine the constructor builds. *)
Lemma reset_clears_history_keeps_weights_witness :
  Nat.lt 0 (max_history (LogicEngine.mk 0.4 0.3 0.3 [80; 70] 10)) /\
  honesty_history (LogicEngine.reset (LogicEngine.mk 0.4 0.3 0.3 [80; 70] 10)) = [] /\
  fst (calculate_honesty_score (LogicEngine.reset (LogicEngine.mk 0.4 0.3 0.3 [80; 70] 10)) 30 25 20)
    == instantaneous_honesty (LogicEngine.mk 0.4 0.3 0.3 [80; 70] 10) 30 25 20.
Proof.
  assert (Hm : Nat.lt 0 (max_history (LogicEngine.mk 0.4 0.3 0.3 [80; 70] 10))) by (simpl; lia).
  split; [exact Hm|].
  split.
  - apply (reset_clears_history_keeps_weights (LogicEngine.mk 0.4 0.3 0.3 [80; 70] 10) 30 25 20 Hm).
  - apply (reset_clears_history_keeps_weights (LogicEngine.mk 0.4 0.3 0.3 [80; 70] 10) 30 25 20 Hm).
Defined.

End LogicEngineFacts.

(** ** The pulse estimator *)

Section BPMEstimatorFacts.
Import BPM_Estimator.

Variable sp : SciPy.

Lemma extract_forehead_roi_none (frame : Frame) (landmarks : option Landmarks) :
  _extract_forehead_roi frame landmarks = None <->
  (landmarks = None \/
   exists l, landmarks = Some l /\ roi_size (forehead_region frame l) = 0%nat).
Proof.
  unfold _extract_forehead_roi. destruct landmarks as [l|].
  - destruct (Nat.eqb_spec (roi_size (forehead_region frame l)) 0) as [E|E].
    + split; [intros _; right; exists l; auto | reflexivity].
    + split; [discriminate|].
      intros [H|[l' [H1 H2]]]; [discriminate|].
      injection H1 as <-. contradiction.
  - split; [intros _; left; reflexivity | reflexivity].
Qed.

Lemma reachable_inv (fps0 buffer_seconds : nat) (self : t) :
  reachable sp fps0 buffer_seconds self -> estimator_inv fps0 buffer_seconds self.
Proof.
  induction 1 as [|self frame landmarks Hr IH|self Hr IH].
  - unfold estimator_inv, init. cbn. repeat split; lia.
  - destruct IH as (Hf & Hb & Hl & Hz).
    unfold process_frame.
    destruct (_extract_forehead_roi frame landmarks) as [roi|].
    + set (buf := deque_append (buffer_size self) (signal_buffer self) (_extract_ppg_signal roi)).
      assert (Hbuf : (length buf <= buffer_size self)%nat)
        by (apply deque_append_length_le; exact Hl).
      assert (Hmono : (length (signal_buffer self) <= length buf)%nat)
        by (apply deque_append_length_mono; exact Hl).
      destruct (Nat.ltb_spec (length buf) (fps self * 5)) as [L|L];
        unfold estimator_inv;
        cbn [snd fps buffer_size signal_buffer current_bpm bpm_history].
      * split; [exact Hf|]. split; [exact Hb|]. split; [exact Hbuf|].
        intros _. apply Hz. lia.
      * split; [exact Hf|]. split; [exact Hb|]. split; [exact Hbuf|].
        intro Hc. exfalso. lia.
    + cbn [snd]. exact (conj Hf (conj Hb (conj Hl Hz))).
  - destruct IH as (Hf & Hb & Hl & Hz).
    unfold estimator_inv, reset.
    cbn [fps buffer_size signal_buffer current_bpm bpm_history length].
    split; [exact Hf|]. split; [exact Hb|]. split; [lia|].
    intros _. split; reflexivity.
Qed.

(** C7 (amended): in every state the estimator can reach, a
    process_frame call that leaves fewer than fps*5 samples in the
    signal buffer returns BPM 0 and keeps the BPM estimate at 0; when
    the forehead region was extracted it returns the buffering status
    with progress = buffered / (fps*5) * 100, the sample having been
    appended; when extraction failed it returns the error marker. *)
Theorem process_frame_buffering_until_filled :
  forall (fps0 buffer_seconds : nat) (self : t) (frame : Frame)
         (landmarks : option Landmarks),
    reachable sp fps0 buffer_seconds self ->
    (length (signal_buffer (snd (process_frame sp self frame landmarks)))
       < fps self * 5)%nat ->
    let r := process_frame sp self frame landmarks in
    fst (fst r) = 0 /\
    current_bpm (snd r) = 0 /\
    bpm_history (snd r) = [] /\
    (forall roi,
        _extract_forehead_roi frame landmarks = Some roi ->
        signal_buffer (snd r)
          = deque_append (buffer_size self) (signal_buffer self) (_extract_ppg_signal roi) /\
        snd (fst r)
          = BufferingMetrics "buffering"
              (Qlen (signal_buffer (snd r)) / inject_Z (Z.of_nat (fps self * 5)) * 100)) /\
    (_extract_forehead_roi frame landmarks = None ->
     snd (fst r) = ErrorMetrics "Could not extract forehead ROI").
Proof.
  intros fps0 buffer_seconds self frame landmarks Hr Hlen r.
  destruct (reachable_inv _ _ _ Hr) as (Hf & Hb & Hl & Hz).
  subst r. revert Hlen. unfold process_frame.
  destruct (_extract_forehead_roi frame landmarks) as [roi|].
  - set (buf := deque_append (buffer_size self) (signal_buffer self) (_extract_ppg_signal roi)).
    assert (Hmono : (length (signal_buffer self) <= length buf)%nat)
      by (apply deque_append_length_mono; exact Hl).
    destruct (Nat.ltb_spec (length buf) (fps self * 5)) as [L|L]; cbn; intro Hlen.
    + destruct Hz as [Hc Hh]; [lia|].
      repeat split; try assumption; try discriminate.
      match goal with
      | E : Some _ = Some _ |- _ => injection E as <-; reflexivity
      end.
    + lia.
  - cbn. intro Hlen. destruct (Hz Hlen) as [Hc Hh].
    repeat split; try assumption; try discriminate.
Qed.

(** C8: when forehead-region extraction fails (no landmarks supplied, or
    the computed region is empty), process_frame returns the last-known
    BPM with the error marker and leaves the estimator as it was: signal
    buffer, BPM history and current BPM are unchanged. *)
Theorem process_frame_roi_failure_keeps_state :
  forall (self : t) (frame : Frame) (landmarks : option Landmarks),
    (landmarks = None \/
     exists l, landmarks = Some l /\ roi_size (forehead_region frame l) = 0%nat) ->
    let r := process_frame sp self frame landmarks in
    _extract_forehead_roi frame landmarks = None /\
    fst r = (current_bpm self, ErrorMetrics "Could not extract forehead ROI") /\
    snd r = self /\
    signal_buffer (snd r) = signal_buffer self /\
    bpm_history (snd r) = bpm_history self /\
    current_bpm (snd r) = current_bpm self.
Proof.
  intros self frame landmarks Hfail r.
  apply extract_forehead_roi_none in Hfail.
  subst r. unfold process_frame. rewrite Hfail. cbn [fst snd].
  repeat split.
Qed.

(** C5 (amended): get_stress_score is min(100, (BPM-90)/40*100) when the
    current BPM exceeds 90 (100 from 130 on), 20 when the BPM is below
    50 and not 0, 0 when the BPM is exactly 0, and 0 between 50 and 90;
    the stress_score that process_frame computes inline follows the same
    rule with 20 for every BPM below 50.  BPM 95 gives 12.5, BPM 45
    gives 20 and BPM 75 gives 0 in both. *)
Theorem pulse_stress_score_rule :
  forall self : t,
    let b := current_bpm self in
    (90 < b -> get_stress_score self == Qmin 100 ((b - 90) / 40 * 100)) /\
    (130 <= b -> get_stress_score self == 100) /\
    (b < 50 -> ~ b == 0 -> get_stress_score self == 20) /\
    (b == 0 -> get_stress_score self == 0) /\
    (50 <= b <= 90 -> get_stress_score self == 0) /\
    (90 < b -> inline_stress_score b == Qmin 100 ((b - 90) / 40 * 100)) /\
    (130 <= b -> inline_stress_score b == 100) /\
    (b < 50 -> inline_stress_score b == 20) /\
    (50 <= b <= 90 -> inline_stress_score b == 0) /\
    (inline_stress_score 95 == 12.5 /\ inline_stress_score 45 == 20 /\
     inline_stress_score 75 == 0) /\
    (forall fps0 bs buf hist,
        get_stress_score (mk fps0 bs buf 48 180 (48 / 60) (180 / 60) 95 hist) == 12.5 /\
        get_stress_score (mk fps0 bs buf 48 180 (48 / 60) (180 / 60) 45 hist) == 20 /\
        get_stress_score (mk fps0 bs buf 48 180 (48 / 60) (180 / 60) 75 hist) == 0).
Proof.
  intros self b.
  assert (Hsat : forall x, 130 <= x -> Qmin 100 ((x - 90) / 40 * 100) == 100).
  { intros x Hx. apply Q.min_l.
    setoid_replace ((x - 90) / 40 * 100) with ((x - 90) * (5 # 2)) by field.
    lra. }
  assert (Hcases :
    forall P : Q -> Q -> Prop,
      (b == 0 -> P 0 (inline_stress_score b)) ->
      (~ b == 0 -> P (inline_stress_score b) (inline_stress_score b)) ->
      P (get_stress_score self) (inline_stress_score b)).
  { intros P H0 H1. unfold get_stress_score, inline_stress_score. fold b.
    destruct (Qeqb b 0) eqn:E0.
    - apply Qeqb_eq in E0. apply (H0 E0).
    - apply Qeqb_neq in E0. apply (H1 E0). }
  assert (Hinline :
    (90 < b -> inline_stress_score b == Qmin 100 ((b - 90) / 40 * 100)) /\
    (b < 50 -> inline_stress_score b == 20) /\
    (50 <= b <= 90 -> inline_stress_score b == 0)).
  { unfold inline_stress_score.
    destruct (Qltb 90 b) eqn:E90; [apply Qltb_lt in E90 | apply Qltb_ge in E90];
      (destruct (Qltb b 50) eqn:E50; [apply Qltb_lt in E50 | apply Qltb_ge in E50]);
      repeat split; intros; try reflexivity; exfalso; lra. }
  destruct Hinline as (Hhigh & Hlow & Hmid).
  split.
  { intro H. apply (Hcases (fun g _ => g == Qmin 100 ((b - 90) / 40 * 100))).
    - intro E. exfalso. lra.
    - intros _. apply Hhigh. exact H. }
  split.
  { intro H. apply (Hcases (fun g _ => g == 100)).
    - intro E. exfalso. lra.
    - intros _. rewrite Hhigh by lra. apply Hsat. exact H. }
  split.
  { intros H Hn. apply (Hcases (fun g _ => g == 20)).
    - intro E. contradiction.
    - intros _. apply Hlow. exact H. }
  split.
  { intro H. apply (Hcases (fun g _ => g == 0)).
    - intros _. reflexivity.
    - intro Hn. contradiction. }
  split.
  { intro H. apply (Hcases (fun g _ => g == 0)).
    - intros _. reflexivity.
    - intros _. apply Hmid. exact H. }
  split; [exact Hhigh|].
  split; [intro H; rewrite Hhigh by lra; apply Hsat; exact H|].
  split; [exact Hlow|].
  split; [exact Hmid|].
  split.
  - repeat split.
  - intros. repeat split.
Qed.

(** The estimator as constructed has BPM 0, which is below 50, and
    get_stress_score returns 0 there, not 20. *)
Lemma get_stress_score_zero_bpm_counterexample :
  current_bpm (init 30 10) < 50 /\
  get_stress_score (init 30 10) == 0 /\
  ~ get_stress_score (init 30 10) == 20.
Proof.
  repeat split. vm_compute. discriminate.
Qed.

(** At one frame per second every FFT bin lies below the pass band. *)
Lemma fftfreq_below_band (n : nat) (f : Q) :
  In f (fftfreq n (1 / inject_Z (Z.of_nat 1))) -> f < 48 / 60.
Proof.
  unfold fftfreq. intro Hin. apply in_map_iff in Hin.
  destruct Hin as (k & Hf & Hk). apply in_seq in Hk.
  change (1 / inject_Z (Z.of_nat 1)) with 1 in Hf.
  change (48 / 60) with (48 # 60).
  set (K := inject_Z (Z.of_nat k)) in *.
  set (N := inject_Z (Z.of_nat n)) in *.
  assert (HKN : K + 1 <= N).
  { unfold K, N. change 1 with (inject_Z 1). rewrite <- inject_Z_plus.
    rewrite <- Zle_Qle. lia. }
  assert (HK : 0 <= K).
  { unfold K. change 0 with (inject_Z 0). rewrite <- Zle_Qle. lia. }
  destruct (k <=? (n - 1) / 2)%nat eqn:E; subst f.
  - apply Nat.leb_le in E.
    assert (H2 : 2 * K + 1 <= N).
    { unfold K, N. change 1 with (inject_Z 1). change 2 with (inject_Z 2).
      rewrite <- inject_Z_mult, <- inject_Z_plus, <- Zle_Qle.
      assert ((2 * k + 1 <= n)%nat).
      { pose proof (Nat.div_mod_eq (n - 1) 2) as Hd.
        pose proof (Nat.mod_upper_bound (n - 1) 2) as Hm. lia. }
      lia. }
    apply Qlt_shift_div_r; lra.
  - apply Qlt_shift_div_r; lra.
Qed.

Lemma estimate_bpm_fft_one_fps (self : t) (signal_data : list Q) :
  fps self = 1%nat -> min_hz self = 48 / 60 ->
  _estimate_bpm_fft sp self signal_data = 0.
Proof.
  intros Hfps Hmin. unfold _estimate_bpm_fft. rewrite Hfps, Hmin.
  match goal with
  | |- match ?v with [] => _ | _ :: _ => _ end = _ => destruct v as [|first rest] eqn:E
  end; [reflexivity|].
  exfalso. destruct first as [f w].
  assert (Hin : In (f, w) ((f, w) :: rest)) by (left; reflexivity).
  rewrite <- E in Hin.
  apply filter_In in Hin. destruct Hin as [Hin Hband].
  apply filter_In in Hin. destruct Hin as [Hin _].
  apply in_combine_l in Hin. apply fftfreq_below_band in Hin.
  cbn [fst] in Hband. apply andb_true_iff in Hband. destruct Hband as [Hlo _].
  apply Qle_bool_iff in Hlo.
  exact (Qlt_not_le _ _ Hin Hlo).
Qed.

(** At one frame per second the first estimate after the buffer has
    filled is BPM 0, reported with stress 20. *)
Lemma process_frame_first_estimate_one_fps
    (self : t) (frame : Frame) (landmarks : option Landmarks) (roi : list (list Pixel)) :
  fps self = 1%nat -> min_hz self = 48 / 60 -> bpm_history self = [] ->
  _extract_forehead_roi frame landmarks = Some roi ->
  (5 <= length (deque_append (buffer_size self) (signal_buffer self)
                  (_extract_ppg_signal roi)))%nat ->
  let buf := deque_append (buffer_size self) (signal_buffer self) (_extract_ppg_signal roi) in
  process_frame sp self frame landmarks
  = ((0, FrameMetrics 0 0 20 (length buf) "poor"),
     mk (fps self) (buffer_size self) buf (min_bpm self) (max_bpm self)
        (min_hz self) (max_hz self) 0 [0]).
Proof.
  intros Hfps Hmin Hhist Hroi Hlen buf.
  unfold process_frame. rewrite Hroi. fold buf.
  destruct (Nat.ltb_spec (length buf) (fps self * 5)) as [L|L].
  - exfalso. rewrite Hfps in L. unfold buf in L. lia.
  - rewrite estimate_bpm_fft_one_fps by assumption.
    cbn [bpm_history]. rewrite Hhist. reflexivity.
Qed.

(** A call that returns frame metrics reports the inline stress of the
    BPM it returns, which is also the BPM it stores. *)
Lemma process_frame_metrics_shape
    (self self' : t) (frame : Frame) (landmarks : option Landmarks)
    (bpm raw stress : Q) (n : nat) (quality : string) :
  process_frame sp self frame landmarks
    = ((bpm, FrameMetrics bpm raw stress n quality), self') ->
  stress = inline_stress_score bpm /\ current_bpm self' = bpm.
Proof.
  unfold process_frame.
  destruct (_extract_forehead_roi frame landmarks) as [roi|]; [|discriminate].
  match goal with
  | |- (if ?c then _ else _) = _ -> _ => destruct c; [discriminate|]
  end.
  intro Hcall. injection Hcall. intros. subst. split; reflexivity.
Qed.

(** C10: get_stress_score returns 0 whenever the current BPM is exactly
    0, while the stress_score process_frame computes inline is 20 for
    every smoothed BPM below 50, 0 included; at BPM 0 the metrics report
    20 and get_stress_score on the resulting state reports 0.  Such a
    call exists: at one frame per second the first estimate is BPM 0. *)
Theorem stress_scores_disagree_at_zero_bpm :
  (forall self : t, current_bpm self == 0 -> get_stress_score self = 0) /\
  (forall (self self' : t) (frame : Frame) (landmarks : option Landmarks)
          (bpm raw stress : Q) (n : nat) (quality : string),
      process_frame sp self frame landmarks
        = ((bpm, FrameMetrics bpm raw stress n quality), self') ->
      (bpm < 50 -> stress = 20 /\ current_bpm self' = bpm) /\
      (bpm == 0 -> stress = 20 /\ get_stress_score self' = 0 /\
                   ~ stress == get_stress_score self')) /\
  (exists (self self' : t) (raw : Q) (n : nat) (quality : string),
      reachable sp 1 10 self /\
      process_frame sp self Examples.flat_frame (Some Examples.centred_landmarks)
        = ((0, FrameMetrics 0 raw 20 n quality), self') /\
      get_stress_score self' = 0).
Proof.
  split; [|split].
  - intros self H0. unfold get_stress_score.
    apply Qeqb_eq in H0. rewrite H0. reflexivity.
  - intros self self' frame landmarks bpm raw stress n quality Hcall.
    destruct (process_frame_metrics_shape _ _ _ _ _ _ _ _ _ Hcall) as [Hstress Hcur].
    rewrite Hstress.
    assert (Hlow : bpm < 50 -> inline_stress_score bpm = 20).
    { intro Hb. unfold inline_stress_score.
      destruct (Qltb 90 bpm) eqn:E90.
      - apply Qltb_lt in E90. exfalso. lra.
      - destruct (Qltb bpm 50) eqn:E50; [reflexivity|].
        apply Qltb_ge in E50. exfalso. lra. }
    split.
    + intro Hb. split; [apply Hlow; exact Hb | exact Hcur].
    + intro H0.
      assert (Hs : inline_stress_score bpm = 20) by (apply Hlow; lra).
      assert (Hg : get_stress_score self' = 0).
      { unfold get_stress_score. rewrite Hcur.
        apply Qeqb_eq in H0. rewrite H0. reflexivity. }
      split; [exact Hs|]. split; [exact Hg|].
      rewrite Hs, Hg. vm_compute. discriminate.
  - set (fr := Examples.flat_frame). set (lm := Some Examples.centred_landmarks).
    set (self := Examples.feed sp 4 (init 1 10) fr lm).
    assert (Hroi : exists roi, _extract_forehead_roi fr lm = Some roi)
      by (eexists; vm_compute; reflexivity).
    destruct Hroi as [roi Hroi].
    pose proof (process_frame_first_estimate_one_fps self fr lm roi) as Hcall.
    cbv zeta in Hcall.
    eexists self, _, 0, _, "poor"%string.
    split; [|split].
    + unfold self. cbn [Examples.feed]. repeat apply reach_process_frame. apply reach_init.
    + apply Hcall; try reflexivity; exact Hroi.
    + reflexivity.
Qed.

End BPMEstimatorFacts.

(** A fresh estimator called without landmarks: the buffer is short of
    fps*5 samples, yet the call returns the error marker, not a
    buffering status. *)
Lemma process_frame_error_while_buffering_counterexample :
  (length (BPM_Estimator.signal_buffer
             (snd (BPM_Estimator.process_frame Examples.plain_scipy (BPM_Estimator.init 30 10)
                     Examples.flat_frame None))) < 30 * 5)%nat /\
  fst (BPM_Estimator.process_frame Examples.plain_scipy (BPM_Estimator.init 30 10)
         Examples.flat_frame None)
    = (0, BPM_Estimator.ErrorMetrics "Could not extract forehead ROI") /\
  ~ (exists status progress,
        snd (fst (BPM_Estimator.process_frame Examples.plain_scipy (BPM_Estimator.init 30 10)
                    Examples.flat_frame None))
        = BPM_Estimator.BufferingMetrics status progress).
Proof.
  split; [vm_compute; lia|].
  split; [reflexivity|].
  intros (status & progress & H). discriminate H.
Qed.

(** The hypotheses of C7 hold for the first frame of a fresh estimator,
    whose forehead region is extracted: the call returns BPM 0 with the
    buffering status and progress 1/150*100 = 2/3, one sample buffered. *)
Lemma process_frame_buffering_until_filled_witness :
  fst (fst (BPM_Estimator.process_frame Examples.plain_scipy (BPM_Estimator.init 30 10)
              Examples.flat_frame (Some Examples.centred_landmarks))) = 0 /\
  length (BPM_Estimator.signal_buffer
            (snd (BPM_Estimator.process_frame Examples.plain_scipy (BPM_Estimator.init 30 10)
                    Examples.flat_frame (Some Examples.centred_landmarks)))) = 1%nat /\
  exists progress,
    snd (fst (BPM_Estimator.process_frame Examples.plain_scipy (BPM_Estimator.init 30 10)
                Examples.flat_frame (Some Examples.centred_landmarks)))
      = BPM_Estimator.BufferingMetrics "buffering" progress /\
    progress == 2 # 3.
Proof.
  assert (Hlen : (length (BPM_Estimator.signal_buffer
                            (snd (BPM_Estimator.process_frame Examples.plain_scipy
                                    (BPM_Estimator.init 30 10) Examples.flat_frame
                                    (Some Examples.centred_landmarks))))
                  < BPM_Estimator.fps (BPM_Estimator.init 30 10) * 5)%nat)
    by (vm_compute; lia).
  assert (Hex : exists roi,
             BPM_Estimator._extract_forehead_roi Examples.flat_frame
               (Some Examples.centred_landmarks) = Some roi)
    by (eexists; vm_compute; reflexivity).
  destruct Hex as [roi Hex].
  destruct (process_frame_buffering_until_filled Examples.plain_scipy 30 10
              (BPM_Estimator.init 30 10) Examples.flat_frame
              (Some Examples.centred_landmarks)
              (BPM_Estimator.reach_init Examples.plain_scipy 30 10) Hlen)
    as (Hbpm & _ & _ & Hroi & _).
  destruct (Hroi roi Hex) as [_ Hmetrics].
  split; [exact Hbpm|].
  split; [vm_compute; reflexivity|].
  eexists. split; [exact Hmetrics|].
  vm_compute. reflexivity.
Defined.

(** The hypothesis of C8 holds for a frame without pixels. *)
Lemma process_frame_roi_failure_keeps_state_witness :
  snd (BPM_Estimator.process_frame Examples.plain_scipy (BPM_Estimator.init 30 10)
         Examples.empty_frame (Some Examples.centred_landmarks))
    = BPM_Estimator.init 30 10 /\
  snd (BPM_Estimator.process_frame Examples.plain_scipy (BPM_Estimator.init 30 10)
         Examples.flat_frame None)
    = BPM_Estimator.init 30 10.
Proof.
  split.
  - apply (process_frame_roi_failure_keeps_state Examples.plain_scipy
             (BPM_Estimator.init 30 10) Examples.empty_frame (Some Examples.centred_landmarks)).
    right. exists Examples.centred_landmarks. split; reflexivity.
  - apply (process_frame_roi_failure_keeps_state Examples.plain_scipy
             (BPM_Estimator.init 30 10) Examples.flat_frame None).
    left. reflexivity.
Defined.

(** The hypotheses of C5 hold at BPM 95 and at BPM 45. *)
Lemma pulse_stress_score_rule_witness :
  BPM_Estimator.get_stress_score
    (BPM_Estimator.mk 30 300 [] 48 180 (48 / 60) (180 / 60) 95 [95])
    == Qmin 100 ((95 - 90) / 40 * 100) /\
  BPM_Estimator.get_stress_score
    (BPM_Estimator.mk 30 300 [] 48 180 (48 / 60) (180 / 60) 45 [45]) == 20.
Proof.
  split.
  - destruct (pulse_stress_score_rule
                (BPM_Estimator.mk 30 300 [] 48 180 (48 / 60) (180 / 60) 95 [95]))
      as (Hhigh & _).
    apply Hhigh. vm_compute. reflexivity.
  - destruct (pulse_stress_score_rule
                (BPM_Estimator.mk 30 300 [] 48 180 (48 / 60) (180 / 60) 45 [45]))
      as (_ & _ & Hlow & _).
    apply Hlow.
    + vm_compute. reflexivity.
    + vm_compute. discriminate.
Defined.

(** The existence part of C10 at concrete signal routines. *)
Lemma stress_scores_disagree_at_zero_bpm_witness :
  exists (self self' : BPM_Estimator.t) (raw : Q) (n : nat) (quality : string),
    BPM_Estimator.reachable Examples.plain_scipy 1 10 self /\
    BPM_Estimator.process_frame Examples.plain_scipy self
      Examples.flat_frame (Some Examples.centred_landmarks)
      = ((0, BPM_Estimator.FrameMetrics 0 raw 20 n quality), self') /\
    BPM_Estimator.get_stress_score self' = 0.
Proof.
  apply (stress_scores_disagree_at_zero_bpm Examples.plain_scipy).
Defined.

(** ** The facial scorer *)

Section FacialAnalysisFacts.
Import FacialAnalysis.

Variable np_sqrt : Q -> Q.
Variable mp : MediaPipe.

(** C6: analyze_frame pushes the eyebrow and the lip metric into their
    rolling windows (of capacity window_size, 30 by default) before
    scoring; a metric whose window then holds fewer than 5 samples has
    anomaly score 0 whatever its value, otherwise its score is
    min(100, (|x - mean| / (std + 1e-6)) / sensitivity * 100) over that
    window. *)
Theorem analyze_frame_anomaly_scores :
  forall (self : t) (frame : Frame) (landmarks : Landmarks),
    face_mesh_process mp frame = Some landmarks ->
    let r := analyze_frame np_sqrt mp self frame in
    let metrics := snd (fst (fst r)) in
    let x_e := _compute_eyebrow_distance landmarks (img_width frame) (img_height frame) in
    let x_l := _compute_lip_distance np_sqrt landmarks (img_width frame) (img_height frame) in
    let win_e := deque_append (window_size self) (eyebrow_distances self) x_e in
    let win_l := deque_append (window_size self) (lip_distances self) x_l in
    eyebrow_distances (snd r) = win_e /\
    lip_distances (snd r) = win_l /\
    ((length (eyebrow_distances self) <= window_size self)%nat ->
     (length win_e <= window_size self)%nat) /\
    ((length (lip_distances self) <= window_size self)%nat ->
     (length win_l <= window_size self)%nat) /\
    ((length win_e < 5)%nat -> eyebrow_anomaly_of metrics = Some 0) /\
    ((length win_l < 5)%nat -> lip_anomaly_of metrics = Some 0) /\
    ((5 <= length win_e)%nat ->
     eyebrow_anomaly_of metrics = Some (z_score_anomaly np_sqrt (sensitivity self) x_e win_e)) /\
    ((5 <= length win_l)%nat ->
     lip_anomaly_of metrics = Some (z_score_anomaly np_sqrt (sensitivity self) x_l win_l)) /\
    ((length (eyebrow_distances self) < 4)%nat -> eyebrow_anomaly_of metrics = Some 0) /\
    ((length (lip_distances self) < 4)%nat -> lip_anomaly_of metrics = Some 0).
Proof.
  intros self frame landmarks Hface r metrics x_e x_l win_e win_l.
  assert (Hzero : forall x win, (length win < 5)%nat ->
                                _compute_anomaly_score np_sqrt self x win = 0).
  { intros x win H. unfold _compute_anomaly_score.
    destruct (Nat.ltb_spec (length win) 5); [reflexivity | lia]. }
  assert (Hscore : forall x win, (5 <= length win)%nat ->
                                 _compute_anomaly_score np_sqrt self x win
                                 = z_score_anomaly np_sqrt (sensitivity self) x win).
  { intros x win H. unfold _compute_anomaly_score, z_score_anomaly.
    destruct (Nat.ltb_spec (length win) 5); [lia | reflexivity]. }
  assert (Hgrow : forall (win : list Q) (x : Q) m,
             (length win < 4)%nat -> (length (deque_append m win x) < 5)%nat).
  { intros win x m H. unfold deque_append.
    destruct (m =? 0)%nat; [lia|].
    destruct (length win <? m)%nat; rewrite length_app; simpl.
    - lia.
    - destruct win; simpl in *; lia. }
  assert (He : eyebrow_anomaly_of metrics = Some (_compute_anomaly_score np_sqrt self x_e win_e)).
  { unfold metrics, r, analyze_frame. rewrite Hface. reflexivity. }
  assert (Hl : lip_anomaly_of metrics = Some (_compute_anomaly_score np_sqrt self x_l win_l)).
  { unfold metrics, r, analyze_frame. rewrite Hface. reflexivity. }
  split; [unfold r, analyze_frame; rewrite Hface; reflexivity|].
  split; [unfold r, analyze_frame; rewrite Hface; reflexivity|].
  split; [apply deque_append_length_le|].
  split; [apply deque_append_length_le|].
  split; [intro H; rewrite He, Hzero by exact H; reflexivity|].
  split; [intro H; rewrite Hl, Hzero by exact H; reflexivity|].
  split; [intro H; rewrite He, Hscore by exact H; reflexivity|].
  split; [intro H; rewrite Hl, Hscore by exact H; reflexivity|].
  split.
  - intro H. rewrite He, Hzero; [reflexivity | apply Hgrow; exact H].
  - intro H. rewrite Hl, Hzero; [reflexivity | apply Hgrow; exact H].
Qed.

End FacialAnalysisFacts.

(** The hypotheses of C6 hold for the first frame of a fresh analyser
    (window of one sample) and for a window that reaches five samples. *)
Lemma analyze_frame_anomaly_scores_witness :
  FacialAnalysis.eyebrow_anomaly_of
    (snd (fst (fst (FacialAnalysis.analyze_frame (fun x => x) Examples.steady_mediapipe
                      (FacialAnalysis.init 30 2) Examples.flat_frame))))
    = Some 0 /\
  FacialAnalysis.eyebrow_anomaly_of
    (snd (fst (fst (FacialAnalysis.analyze_frame (fun x => x) Examples.steady_mediapipe
                      (FacialAnalysis.mk 30 2 [1; 2; 3; 4] [] [] 4 false 0)
                      Examples.flat_frame))))
    = Some (FacialAnalysis.z_score_anomaly (fun x => x) 2
              (FacialAnalysis._compute_eyebrow_distance Examples.centred_landmarks 100 100)
              (deque_append 30 [1; 2; 3; 4]
                 (FacialAnalysis._compute_eyebrow_distance Examples.centred_landmarks 100 100))).
Proof.
  split.
  - destruct (analyze_frame_anomaly_scores (fun x => x) Examples.steady_mediapipe
                (FacialAnalysis.init 30 2) Examples.flat_frame Examples.centred_landmarks
                eq_refl) as (_ & _ & _ & _ & Hfew & _).
    apply Hfew. vm_compute. lia.
  - destruct (analyze_frame_anomaly_scores (fun x => x) Examples.steady_mediapipe
                (FacialAnalysis.mk 30 2 [1; 2; 3; 4] [] [] 4 false 0)
                Examples.flat_frame Examples.centred_landmarks
                eq_refl) as (_ & _ & _ & _ & _ & _ & Hfull & _).
    apply Hfull. vm_compute. lia.
Defined.

(** ** The voice analyser *)

Section VoiceStressFacts.
Import VoiceStress.

Variable lr : Librosa.

(** The jitter path catches what the pitch tracker raises. *)
Lemma calculate_jitter_absorbs (self : t) (audio_chunk : list Q) (e : exn) :
  pyin lr audio_chunk (sample_rate self) = Raised e ->
  _calculate_jitter lr self audio_chunk = Returned 0.
Proof.
  intro H. unfold _calculate_jitter. rewrite H. reflexivity.
Qed.

(** The pitch path has no handler. *)
Lemma extract_pitch_propagates (self : t) (audio_chunk : list Q) (e : exn) :
  pyin lr audio_chunk (sample_rate self) = Raised e ->
  _extract_pitch lr self audio_chunk = Raised e.
Proof.
  intro H. unfold _extract_pitch. rewrite H. reflexivity.
Qed.

(** Neither has the shimmer path. *)
Lemma calculate_shimmer_propagates (self : t) (audio_chunk : list Q) (e : exn) :
  feature_rms lr audio_chunk = Raised e ->
  _calculate_shimmer lr self audio_chunk = Raised e.
Proof.
  intro H. unfold _calculate_shimmer. rewrite H. reflexivity.
Qed.

(** Once the buffer holds a full window, an exception of the pitch
    tracker leaves [analyze_audio] as an exception, the analyser
    unchanged. *)
Lemma analyze_audio_propagates_pitch_failure (self : t) (peak : Q) (e : exn) :
  (chunk_size self <= length (audio_buffer self))%nat ->
  np_max_abs (last_n (chunk_size self) (audio_buffer self)) = Returned peak ->
  pyin lr (normalized_chunk self peak) (sample_rate self) = Raised e ->
  analyze_audio lr self = (Raised e, self).
Proof.
  intros Hlen Hpeak Hpyin. unfold analyze_audio.
  destruct (Nat.ltb_spec (length (audio_buffer self)) (chunk_size self)) as [L|L]; [lia|].
  rewrite Hpeak. cbn [bind]. fold (normalized_chunk self peak).
  rewrite (extract_pitch_propagates self _ e Hpyin). reflexivity.
Qed.

End VoiceStressFacts.

(** C9 (the code departs from it): with a full window buffered and a
    pitch tracker that raises on it, analyze_audio raises the same
    exception instead of reporting pitch 0, although _calculate_jitter
    on the same window returns 0. *)
Theorem analyze_audio_raises_on_pitch_failure :
  (length (VoiceStress.audio_buffer Examples.filled_voice)
   = VoiceStress.chunk_size Examples.filled_voice) /\
  VoiceStress.analyze_audio Examples.rejecting_librosa Examples.filled_voice
    = (Raised (LibraryError "Audio buffer is not finite everywhere"), Examples.filled_voice) /\
  VoiceStress._calculate_jitter Examples.rejecting_librosa Examples.filled_voice
    (VoiceStress.audio_buffer Examples.filled_voice) = Returned 0.
Proof.
  split; [reflexivity|].
  split.
  - apply (analyze_audio_propagates_pitch_failure Examples.rejecting_librosa
             Examples.filled_voice 0.5); reflexivity.
  - apply (calculate_jitter_absorbs Examples.rejecting_librosa Examples.filled_voice _
             (LibraryError "Audio buffer is not finite everywhere")).
    reflexivity.
Qed.

(** ** The specification's numeric scenarios in binary64 *)

Section Binary64Facts.

(** Scenario A: 0.4*30 + 0.3*25 + 0.3*20 rounds to exactly 25.5, and
    the first-sample mean 74.5 / 1 is 74.5. *)
Lemma scenario_A_binary64 :
  Binary64.instantaneous_honesty 0.4 0.3 0.3 30 25 20 = 74.5%float /\
  (74.5 / 1)%float = 74.5%float /\
  Binary64.get_alert_level 74.5 = LogicEngine.LOW_STRESS.
Proof. repeat split. Qed.

(** The alert boundaries. *)
Lemma alert_boundaries_binary64 :
  Binary64.get_alert_level 39.99 = LogicEngine.HIGH_STRESS /\
  Binary64.get_alert_level 40.00 = LogicEngine.MEDIUM_STRESS /\
  Binary64.get_alert_level 59.99 = LogicEngine.MEDIUM_STRESS /\
  Binary64.get_alert_level 60.00 = LogicEngine.LOW_STRESS.
Proof. repeat split. Qed.

(** Scenario C, and the guard at BPM 0. *)
Lemma scenario_C_binary64 :
  Binary64.get_stress_score 95 = 12.5%float /\
  Binary64.get_stress_score 45 = 20%float /\
  Binary64.get_stress_score 75 = 0%float /\
  Binary64.get_stress_score 130 = 100%float /\
  Binary64.get_stress_score 0 = 0%float.
Proof. repeat split. Qed.

(** Renormalisation in binary64: a total that overflows to infinity
    leaves the three weights 0; a finite total gives 0, 0.5, 0.5 when the
    facial weight is withdrawn from 0.4, 0.3, 0.3. *)
Lemma renormalize_binary64 :
  Binary64.renormalize 1e308 1e308 1e308 = (0, 0, 0)%float /\
  Binary64.renormalize 0 0.3 0.3 = (0, 0.5, 0.5)%float.
Proof. repeat split. Qed.

End Binary64Facts.

(** * Further properties of the code *)

(** ** Windows *)

(** Keeping the last [m] after every append is keeping the last [m]. *)
Lemma last_n_app_last_n {A : Type} (m : nat) (xs ys : list A) :
  (0 < m)%nat -> last_n m (last_n m xs ++ ys) = last_n m (xs ++ ys).
Proof.
  intro Hm. unfold last_n.
  destruct (Nat.eqb_spec m 0) as [E|_]; [lia|].
  rewrite length_app, length_skipn, length_app.
  rewrite (skipn_app (length xs + length ys - m) xs ys).
  rewrite (skipn_app (length xs - (length xs - m) + length ys - m) (skipn (length xs - m) xs) ys).
  rewrite skipn_skipn, length_skipn.
  f_equal; f_equal; lia.
Qed.

Lemma last_n_length {A : Type} (m : nat) (xs : list A) :
  (0 < m)%nat -> (length (last_n m xs) <= m)%nat.
Proof.
  intro Hm. unfold last_n.
  destruct (Nat.eqb_spec m 0) as [E|_]; [lia|].
  rewrite length_skipn. lia.
Qed.

Lemma last_n_all {A : Type} (m : nat) (xs : list A) :
  (length xs <= m)%nat -> last_n m xs = xs.
Proof.
  intro H. unfold last_n. destruct (m =? 0)%nat; [reflexivity|].
  replace (length xs - m)%nat with 0%nat by lia. reflexivity.
Qed.

(** ** The fusion engine over several calls *)

Section FusionFacts.
Import LogicEngine.

Lemma history_step_last_n (h : list Q) (x : Q) (m : nat) :
  (0 < m)%nat -> (length h <= m)%nat ->
  (if (m <? length (h ++ [x]))%nat then tl (h ++ [x]) else h ++ [x]) = last_n m (h ++ [x]).
Proof.
  intros Hm Hh. unfold last_n.
  destruct (Nat.eqb_spec m 0) as [E|_]; [lia|].
  rewrite length_app. cbn [length].
  destruct (Nat.ltb_spec m (length h + 1)) as [L|L].
  - replace (length h + 1 - m)%nat with 1%nat by lia.
    destruct h; reflexivity.
  - replace (length h + 1 - m)%nat with 0%nat by lia. reflexivity.
Qed.

Lemma feed_keeps_weights (samples : list Fusion.Sample) (self : LogicEngine.t) :
  facial_weight (Fusion.feed self samples) = facial_weight self /\
  voice_weight (Fusion.feed self samples) = voice_weight self /\
  pulse_weight (Fusion.feed self samples) = pulse_weight self /\
  max_history (Fusion.feed self samples) = max_history self.
Proof.
  revert self. induction samples as [|s samples IH]; intro self.
  - repeat split.
  - unfold Fusion.feed. cbn [fold_left]. fold (Fusion.feed
      (snd (calculate_honesty_score self (fst (fst s)) (snd (fst s)) (snd s))) samples).
    destruct (IH (snd (calculate_honesty_score self (fst (fst s)) (snd (fst s)) (snd s))))
      as (H1 & H2 & H3 & H4).
    rewrite H1, H2, H3, H4. repeat split.
Qed.

(** X2: the smoothing history is a sliding window: after any sequence
    of calls it holds the last max_history instantaneous values of the
    old history followed by the new samples, oldest first, and the
    weights are untouched. *)
Theorem honesty_history_is_sliding_window :
  forall (samples : list Fusion.Sample) (self : LogicEngine.t),
    (0 < max_history self)%nat ->
    (length (honesty_history self) <= max_history self)%nat ->
    honesty_history (Fusion.feed self samples)
      = last_n (max_history self)
          (honesty_history self ++ map (Fusion.honesty_of self) samples) /\
    (length (honesty_history (Fusion.feed self samples)) <= max_history self)%nat /\
    facial_weight (Fusion.feed self samples) = facial_weight self /\
    voice_weight (Fusion.feed self samples) = voice_weight self /\
    pulse_weight (Fusion.feed self samples) = pulse_weight self.
Proof.
  intros samples self Hm Hlen.
  assert (Hhist : honesty_history (Fusion.feed self samples)
                  = last_n (max_history self)
                      (honesty_history self ++ map (Fusion.honesty_of self) samples)).
  { revert self Hm Hlen. induction samples as [|s samples IH]; intros self Hm Hlen.
    - cbn [Fusion.feed fold_left map]. rewrite app_nil_r.
      symmetry. apply last_n_all. exact Hlen.
    - unfold Fusion.feed. cbn [fold_left].
      set (self1 := snd (calculate_honesty_score self (fst (fst s)) (snd (fst s)) (snd s))).
      fold (Fusion.feed self1 samples).
      assert (H1 : honesty_history self1
                   = last_n (max_history self) (honesty_history self ++ [Fusion.honesty_of self s])).
      { unfold self1, calculate_honesty_score. cbn [snd honesty_history].
        apply history_step_last_n; assumption. }
      assert (Hm1 : max_history self1 = max_history self) by reflexivity.
      assert (Hw : forall s', Fusion.honesty_of self1 s' = Fusion.honesty_of self s')
        by reflexivity.
      rewrite IH.
      + rewrite Hm1, H1. rewrite (map_ext _ _ Hw).
        rewrite last_n_app_last_n by exact Hm.
        rewrite <- app_assoc. reflexivity.
      + rewrite Hm1. exact Hm.
      + rewrite Hm1, H1. apply last_n_length. exact Hm. }
  destruct (feed_keeps_weights samples self) as (H1 & H2 & H3 & _).
  split; [exact Hhist|].
  split; [rewrite Hhist; apply last_n_length; exact Hm|].
  auto.
Qed.

(** X2 on twelve samples fed to the default engine. *)
Lemma honesty_history_is_sliding_window_witness :
  length (honesty_history
            (Fusion.feed (LogicEngine.mk 0.4 0.3 0.3 [] 10)
               (repeat (30, 25, 20) 12))) = 10%nat.
Proof.
  destruct (honesty_history_is_sliding_window (repeat (30, 25, 20) 12)
              (LogicEngine.mk 0.4 0.3 0.3 [] 10)) as (H & _).
  - simpl. lia.
  - simpl. lia.
  - rewrite H. reflexivity.
Defined.



(** X6: get_alert_level is monotone: a higher honesty score never gives
    a more severe alert, and equal scores give the same alert. *)
Theorem get_alert_level_monotone :
  forall s1 s2 : Q,
    s1 <= s2 ->
    (Fusion.severity (get_alert_level s2) <= Fusion.severity (get_alert_level s1))%nat /\
    (s1 == s2 -> get_alert_level s1 = get_alert_level s2).
Proof.
  intros s1 s2 Hle. unfold get_alert_level.
  destruct (Qltb s1 40) eqn:A1; [apply Qltb_lt in A1 | apply Qltb_ge in A1];
    (destruct (Qltb s1 60) eqn:B1; [apply Qltb_lt in B1 | apply Qltb_ge in B1]);
    (destruct (Qltb s2 40) eqn:A2; [apply Qltb_lt in A2 | apply Qltb_ge in A2]);
    (destruct (Qltb s2 60) eqn:B2; [apply Qltb_lt in B2 | apply Qltb_ge in B2]);
    try (exfalso; lra);
    (split; [simpl; lia | intro E; try reflexivity; exfalso; lra]).
Qed.

(** X6 at the two sides of the lower threshold. *)
Lemma get_alert_level_monotone_witness :
  (Fusion.severity (get_alert_level 40) <= Fusion.severity (get_alert_level 39.99))%nat.
Proof.
  apply (get_alert_level_monotone 39.99 40). vm_compute. discriminate.
Defined.

(** X7: with non-negative weights, raising any of the three stress
    inputs never raises the instantaneous honesty. *)
Theorem instantaneous_honesty_antitone :
  forall (self : LogicEngine.t) (f1 v1 p1 f2 v2 p2 : Q),
    0 <= facial_weight self -> 0 <= voice_weight self -> 0 <= pulse_weight self ->
    f1 <= f2 -> v1 <= v2 -> p1 <= p2 ->
    instantaneous_honesty self f2 v2 p2 <= instantaneous_honesty self f1 v1 p1.
Proof.
  intros self f1 v1 p1 f2 v2 p2 Hf Hv Hp Hf12 Hv12 Hp12.
  assert (Hclip : forall a b, a <= b -> np_clip a 0 100 <= np_clip b 0 100).
  { intros a b Hab. unfold np_clip.
    apply Q.min_le_compat_l. apply Q.max_le_compat_r. exact Hab. }
  assert (Hmul : forall w a b, 0 <= w -> a <= b -> w * a <= w * b).
  { intros w a b Hw Hab. rewrite (Qmult_comm w a), (Qmult_comm w b).
    apply Qmult_le_compat_r; assumption. }
  unfold instantaneous_honesty.
  pose proof (Hmul _ _ _ Hf (Hclip _ _ Hf12)).
  pose proof (Hmul _ _ _ Hv (Hclip _ _ Hv12)).
  pose proof (Hmul _ _ _ Hp (Hclip _ _ Hp12)).
  lra.
Qed.

(** X7 on the default engine. *)
Lemma instantaneous_honesty_antitone_witness :
  instantaneous_honesty (LogicEngine.mk 0.4 0.3 0.3 [] 10) 50 25 20
    <= instantaneous_honesty (LogicEngine.mk 0.4 0.3 0.3 [] 10) 30 25 20.
Proof.
  apply (instantaneous_honesty_antitone (LogicEngine.mk 0.4 0.3 0.3 [] 10) 30 25 20 50 25 20);
    vm_compute; discriminate.
Defined.

End FusionFacts.

(** ** The pulse estimator over its life *)

Section EstimatorLifeFacts.
Import BPM_Estimator.

Variable sp : SciPy.

Lemma inline_stress_score_bounds (b : Q) : 0 <= inline_stress_score b <= 100.
Proof.
  unfold inline_stress_score.
  destruct (Qltb 90 b) eqn:E90.
  - apply Qltb_lt in E90. split.
    + apply Q.min_glb; [lra|].
      setoid_replace ((b - 90) / 40 * 100) with ((b - 90) * (5 # 2)) by field. lra.
    + apply Q.le_min_l.
  - destruct (Qltb b 50); split; lra.
Qed.

(** X8: both stress computations of the estimator stay within [0,100]
    for every BPM value. *)
Theorem pulse_stress_scores_within_bounds :
  forall (self : t) (b : Q),
    0 <= get_stress_score self <= 100 /\ 0 <= inline_stress_score b <= 100.
Proof.
  intros self b. split; [|apply inline_stress_score_bounds].
  pose proof (inline_stress_score_bounds (current_bpm self)) as H.
  unfold inline_stress_score in H. unfold get_stress_score.
  destruct (Qeqb (current_bpm self) 0); [split; lra | exact H].
Qed.

(** Configuration and capacities that no call changes. *)
Lemma reachable_config (fps0 buffer_seconds : nat) (self : t) :
  reachable sp fps0 buffer_seconds self ->
  min_bpm self = 48 /\ max_bpm self = 180 /\
  min_hz self = 48 / 60 /\ max_hz self = 180 / 60 /\
  (length (bpm_history self) <= 10)%nat.
Proof.
  induction 1 as [|self frame landmarks Hr IH|self Hr IH].
  - cbn. repeat split. lia.
  - destruct IH as (H1 & H2 & H3 & H4 & H5).
    unfold process_frame.
    destruct (_extract_forehead_roi frame landmarks) as [roi|]; [|cbn [snd]; auto].
    match goal with
    | |- context [if ?c then _ else _] => destruct c
    end; cbn [snd min_bpm max_bpm min_hz max_hz bpm_history].
    + auto.
    + repeat split; try assumption.
      apply deque_append_length_le. exact H5.
  - destruct IH as (H1 & H2 & H3 & H4 & H5).
    cbn. repeat split; try assumption. lia.
Qed.

(** X9: in every reachable state the signal buffer holds at most
    fps * buffer_seconds samples and the BPM history at most 10
    estimates, and the frame rate, the buffer capacity and the 0.8-3.0
    Hz band are those set by the constructor. *)
Theorem estimator_capacities_and_config_hold :
  forall (fps0 buffer_seconds : nat) (self : t),
    reachable sp fps0 buffer_seconds self ->
    (length (signal_buffer self) <= fps0 * buffer_seconds)%nat /\
    (length (bpm_history self) <= 10)%nat /\
    fps self = fps0 /\ buffer_size self = (fps0 * buffer_seconds)%nat /\
    min_hz self == 0.8 /\ max_hz self == 3.
Proof.
  intros fps0 buffer_seconds self Hr.
  destruct (reachable_inv sp _ _ _ Hr) as (Hf & Hb & Hl & _).
  destruct (reachable_config _ _ _ Hr) as (_ & _ & Hlo & Hhi & Hh).
  rewrite Hlo, Hhi. rewrite <- Hb.
  repeat split; try assumption.
Qed.

(** X10: while the estimator is buffering, the pulse stress the main
    loop reads after process_frame (get_stress_score on the resulting
    state) is 0. *)
Theorem buffering_reports_zero_pulse_stress :
  forall (fps0 buffer_seconds : nat) (self : t) (frame : Frame)
         (landmarks : option Landmarks),
    reachable sp fps0 buffer_seconds self ->
    (length (signal_buffer (snd (process_frame sp self frame landmarks)))
       < fps self * 5)%nat ->
    get_stress_score (snd (process_frame sp self frame landmarks)) = 0.
Proof.
  intros fps0 buffer_seconds self frame landmarks Hr Hlen.
  pose proof (reach_process_frame sp fps0 buffer_seconds self frame landmarks Hr) as Hr'.
  destruct (reachable_inv sp _ _ _ Hr') as (Hf' & _ & _ & Hz).
  destruct (reachable_inv sp _ _ _ Hr) as (Hf & _).
  destruct Hz as [Hc _]; [rewrite Hf', <- Hf; exact Hlen|].
  unfold get_stress_score. rewrite Hc. reflexivity.
Qed.

(** X11: process_frame never shortens the signal buffer, so an
    estimator that has left the buffering state stays out of it: with
    fps*5 samples buffered, every call keeps at least fps*5 samples and
    no call returns the buffering status. *)
Theorem active_estimator_never_buffers_again :
  forall (fps0 buffer_seconds : nat) (self : t) (frame : Frame)
         (landmarks : option Landmarks),
    reachable sp fps0 buffer_seconds self ->
    (fps self * 5 <= length (signal_buffer self))%nat ->
    let r := process_frame sp self frame landmarks in
    (length (signal_buffer self) <= length (signal_buffer (snd r)))%nat /\
    (fps self * 5 <= length (signal_buffer (snd r)))%nat /\
    (forall status progress, snd (fst r) <> BufferingMetrics status progress).
Proof.
  intros fps0 buffer_seconds self frame landmarks Hr Hfull r.
  destruct (reachable_inv sp _ _ _ Hr) as (_ & _ & Hl & _).
  subst r. unfold process_frame.
  destruct (_extract_forehead_roi frame landmarks) as [roi|].
  - set (buf := deque_append (buffer_size self) (signal_buffer self) (_extract_ppg_signal roi)).
    assert (Hmono : (length (signal_buffer self) <= length buf)%nat)
      by (apply deque_append_length_mono; exact Hl).
    destruct (Nat.ltb_spec (length buf) (fps self * 5)) as [L|L]; [lia|].
    cbn [fst snd signal_buffer].
    split; [exact Hmono|]. split; [exact L | discriminate].
  - cbn [fst snd]. split; [lia|]. split; [exact Hfull | discriminate].
Qed.

(** X12: reset brings every reachable estimator back to the state the
    constructor built, so the next extracted frame is buffered again
    with BPM 0 whenever fps*5 exceeds one sample. *)
Theorem reset_restores_constructed_estimator :
  forall (fps0 buffer_seconds : nat) (self : t),
    reachable sp fps0 buffer_seconds self ->
    reset self = init fps0 buffer_seconds /\
    reset (reset self) = reset self /\
    get_stress_score (reset self) = 0.
Proof.
  intros fps0 buffer_seconds self Hr.
  destruct (reachable_inv sp _ _ _ Hr) as (Hf & Hb & _).
  destruct (reachable_config _ _ _ Hr) as (H1 & H2 & H3 & H4 & _).
  assert (E : reset self = init fps0 buffer_seconds).
  { unfold reset, init. rewrite Hf, Hb, H1, H2, H3, H4. reflexivity. }
  split; [exact E|]. split; [reflexivity|].
  rewrite E. reflexivity.
Qed.

End EstimatorLifeFacts.

(** X9 after three frames of a fresh estimator. *)
Lemma estimator_capacities_and_config_hold_witness :
  (length (BPM_Estimator.signal_buffer
             (Examples.feed Examples.plain_scipy 3 (BPM_Estimator.init 30 10)
                Examples.flat_frame (Some Examples.centred_landmarks))) <= 30 * 10)%nat.
Proof.
  refine (proj1 (estimator_capacities_and_config_hold Examples.plain_scipy 30 10
                   (Examples.feed Examples.plain_scipy 3 (BPM_Estimator.init 30 10)
                      Examples.flat_frame (Some Examples.centred_landmarks)) _)).
  cbn [Examples.feed]. repeat apply BPM_Estimator.reach_process_frame.
  apply BPM_Estimator.reach_init.
Defined.

(** X10 on the first frame of a fresh estimator. *)
Lemma buffering_reports_zero_pulse_stress_witness :
  BPM_Estimator.get_stress_score
    (snd (BPM_Estimator.process_frame Examples.plain_scipy (BPM_Estimator.init 30 10)
            Examples.flat_frame (Some Examples.centred_landmarks))) = 0.
Proof.
  refine (buffering_reports_zero_pulse_stress Examples.plain_scipy 30 10
            (BPM_Estimator.init 30 10) Examples.flat_frame
            (Some Examples.centred_landmarks) _ _).
  - apply BPM_Estimator.reach_init.
  - vm_compute. lia.
Defined.

(** X11 at one frame per second with five samples buffered. *)
Lemma active_estimator_never_buffers_again_witness :
  (1 * 5 <= length (BPM_Estimator.signal_buffer
                      (snd (BPM_Estimator.process_frame Examples.plain_scipy
                              (Examples.feed Examples.plain_scipy 5 (BPM_Estimator.init 1 10)
                                 Examples.flat_frame (Some Examples.centred_landmarks))
                              Examples.flat_frame (Some Examples.centred_landmarks)))))%nat.
Proof.
  refine (proj1 (proj2 (active_estimator_never_buffers_again Examples.plain_scipy 1 10
                   (Examples.feed Examples.plain_scipy 5 (BPM_Estimator.init 1 10)
                      Examples.flat_frame (Some Examples.centred_landmarks))
                   Examples.flat_frame (Some Examples.centred_landmarks) _ _))).
  - cbn [Examples.feed]. repeat apply BPM_Estimator.reach_process_frame.
    apply BPM_Estimator.reach_init.
  - vm_compute. lia.
Defined.

(** X12 after three frames of a fresh estimator. *)
Lemma reset_restores_constructed_estimator_witness :
  BPM_Estimator.reset
    (Examples.feed Examples.plain_scipy 3 (BPM_Estimator.init 30 10)
       Examples.flat_frame (Some Examples.centred_landmarks))
  = BPM_Estimator.init 30 10.
Proof.
  refine (proj1 (reset_restores_constructed_estimator Examples.plain_scipy 30 10
                   (Examples.feed Examples.plain_scipy 3 (BPM_Estimator.init 30 10)
                      Examples.flat_frame (Some Examples.centred_landmarks)) _)).
  cbn [Examples.feed]. repeat apply BPM_Estimator.reach_process_frame.
  apply BPM_Estimator.reach_init.
Defined.
